(** * pdf_to_html: reading order, block classification and conversion

    A shallow embedding of [pdf_to_html.py]: the three functions
    [extract_text_from_pdf], [create_html_from_text] and
    [convert_pdf_to_html], together with the interpreter and library
    operations they call ([str.strip], [str.isupper], [str.isdigit],
    [sorted], the BeautifulSoup tag builder, [os.makedirs], [open]). *)

From Stdlib Require Import Ascii String QArith Qcanon.
From stdpp Require Import base decidable list numbers strings gmap pretty sorting.

Local Open Scope nat_scope.

(** ** Python strings

    A Python [str] is a sequence of Unicode code points; [len] counts code
    points.  File names, tag names and attribute values, which the script
    only builds from ASCII literals and never inspects with the character
    predicates, are kept as [string]. *)

Definition str := list N.

Definition str_of_string (s : string) : str :=
  (fun a => N_of_ascii a) <$> list_ascii_of_string s.

(** The character predicates of the interpreter (CPython's
    [Py_UNICODE_IS*] macros, answered from the Unicode character database
    compiled into it).  The database is not part of the script, so it is an
    interface here. *)
Class UnicodeData := {
  Py_UNICODE_ISSPACE : N -> bool;
  Py_UNICODE_ISLOWER : N -> bool;
  Py_UNICODE_ISUPPER : N -> bool;
  Py_UNICODE_ISTITLE : N -> bool;
  Py_UNICODE_ISDIGIT : N -> bool;
  Py_UNICODE_ISALPHA : N -> bool;
}.

(** The database restricted to ASCII: it answers as Unicode does for every
    code point below 128 and knows no character above.  On ASCII text the
    string methods below compute what the interpreter computes. *)
Definition in_range (lo hi c : N) : bool := ((lo <=? c) && (c <=? hi))%N.

Definition ascii_data : UnicodeData := {|
  Py_UNICODE_ISSPACE c := in_range 9 13 c || in_range 28 32 c;
  Py_UNICODE_ISLOWER c := in_range 97 122 c;
  Py_UNICODE_ISUPPER c := in_range 65 90 c;
  Py_UNICODE_ISTITLE c := false;
  Py_UNICODE_ISDIGIT c := in_range 48 57 c;
  Py_UNICODE_ISALPHA c := in_range 65 90 c || in_range 97 122 c;
|}.

(** ** Positioned text blocks and layout elements *)

(** The dictionary appended to [page_text]: keys ['text'], ['x'], ['y'],
    ['width'], ['height'].  Coordinates are the layout analyser's floats;
    the script only negates and compares them, which is exact on finite
    floats, so they are exact rationals here (no NaN). *)
Record block := mk_block {
  text : str;
  x : Qc;
  y : Qc;
  width : Qc;
  height : Qc;
}.

(** What iterating over a page layout yields: text containers (boxes and
    lines of text, with their bounding box) and elements without text. *)
Inductive element :=
| LTTextContainer (get_text : str) (x0 y0 elt_width elt_height : Qc)
| LTLine
| LTRect
| LTCurve
| LTImage
| LTFigure.

(** The exception object; [str(e)] is all the script reads of it. *)
Record Exception := mk_Exception { exn_str : string }.

(** The generator returned by [extract_pages]: it yields page layouts one
    at a time and either is exhausted or raises while decoding. *)
Inductive generator :=
| StopIteration
| Yield (page_layout : list element) (rest : generator)
| Raises (e : Exception).

(** The page layouts a generator yields before it stops, and the exception
    it stops with, if any. *)
Fixpoint yielded (gen : generator) : list (list element) :=
  match gen with
  | Yield page_layout rest => page_layout :: yielded rest
  | StopIteration | Raises _ => []
  end.

Fixpoint raised (gen : generator) : option Exception :=
  match gen with
  | Yield _ rest => raised rest
  | StopIteration => None
  | Raises e => Some e
  end.

(** ** The BeautifulSoup tree *)

#[warnings="-register-all"] Inductive PageElement :=
| NavigableString (s : str)
| Tag (name : string) (attrs : gmap string string) (contents : list PageElement).

Definition tag_name (t : PageElement) : string :=
  match t with Tag n _ _ => n | NavigableString _ => "" end.

Definition tag_attrs (t : PageElement) : gmap string string :=
  match t with Tag _ a _ => a | NavigableString _ => ∅ end.

Definition tag_contents (t : PageElement) : list PageElement :=
  match t with Tag _ _ c => c | NavigableString _ => [] end.

(** [tag.string]: the text of a tag whose only child is a string. *)
Definition tag_string (t : PageElement) : option str :=
  match t with
  | Tag _ _ [NavigableString s] => Some s
  | _ => None
  end.

(** [soup.new_tag(name, attrs=...)]. *)
Definition new_tag (name : string) (attrs : gmap string string) : PageElement :=
  Tag name attrs [].

(** [tag[key] = value]: assignment into the attribute dictionary. *)
Definition setitem (t : PageElement) (key value : string) : PageElement :=
  match t with
  | Tag n a c => Tag n (<[key := value]> a) c
  | NavigableString s => NavigableString s
  end.

(** [tag.string = s]: the contents become the single string [s]. *)
Definition set_string (t : PageElement) (s : str) : PageElement :=
  match t with
  | Tag n a _ => Tag n a [NavigableString s]
  | NavigableString _ => NavigableString s
  end.

(** [tag.append(child)]. *)
Definition append (t child : PageElement) : PageElement :=
  match t with
  | Tag n a c => Tag n a (c ++ [child])
  | NavigableString s => NavigableString s
  end.

(** The CSS classes of an element: the whitespace-separated tokens of its
    [class] attribute. *)
Definition classes (t : PageElement) : list string :=
  match tag_attrs t !! "class" with
  | Some v => String.words v
  | None => []
  end.

(** ** Standard output, file system and effects *)

(** One constructor per [print] of the script, holding the values
    interpolated into its format string. *)
Inductive event :=
| Found_text_blocks_on_page (n page : nat)
| Warning_no_text_found_on_page (page : nat)
| Error_extracting_text (msg : string)
| Processing_page (page_num n : nat)
| Generated_HTML_length (n : nat)
| Error_creating_HTML (msg : string)
| Extracting_text_from (pdf_path : string)
| Extracted_pages_of_content (n : nat)
| Warning_no_text_content_extracted
| Converting_to_HTML
| Warning_no_HTML_content_generated
| Saving_HTML_to (output_path : string)
| Wrote_bytes_to_file (n : nat)
| File_created_successfully (size : nat)
| Warning_file_was_not_created
| Conversion_complete (output_path : string)
| Error_during_conversion (msg : string).

Record World := mk_World {
  stdout : list event;
  dirs : gset string;
  files : gmap string str;
}.

Inductive outcome (A : Type) :=
| Return (a : A)
| Raise (e : Exception).
Arguments Return {A} a.
Arguments Raise {A} e.

(** A computation runs in a world and leaves a world behind, also when it
    raises: what was printed or written before the exception stays. *)
Definition Py (A : Type) : Type := World -> outcome A * World.

#[global] Instance Py_ret : MRet Py := fun A a w => (Return a, w).

#[global] Instance Py_bind : MBind Py := fun A B f m w =>
  match m w with
  | (Return a, w') => f a w'
  | (Raise e, w') => (Raise e, w')
  end.

Definition raise {A} (e : Exception) : Py A := fun w => (Raise e, w).

(** [try: m except Exception as e: handler(e)]. *)
Definition try_except {A} (m : Py A) (handler : Exception -> Py A) : Py A :=
  fun w =>
    match m w with
    | (Return a, w') => (Return a, w')
    | (Raise e, w') => handler e w'
    end.

(** The world after more lines went to standard output. *)
Definition emit (evs : list event) (w : World) : World :=
  mk_World (stdout w ++ evs) (dirs w) (files w).

Definition print (ev : event) : Py unit := fun w => (Return (), emit [ev] w).

(** The collaborators outside the script: the PDF decoder, the serializer
    of the tree, and whether the operating system refuses a call. *)
Inductive syscall :=
| Sys_makedirs (name : string)
| Sys_open_w (path : string)
| Sys_write (path : string).

Class Runtime := {
  extract_pages : string -> generator;
  prettify : PageElement -> outcome str;
  os_error : syscall -> option Exception;
}.

Inductive Role := Header | Footer | Body.

Section StrMethods.
Context `{UnicodeData}.

(** [str.strip()] without argument: leading and trailing whitespace is
    removed. *)
Fixpoint lstrip (s : str) : str :=
  match s with
  | [] => []
  | ch :: s' => if Py_UNICODE_ISSPACE ch then lstrip s' else s
  end.

Definition rstrip (s : str) : str := reverse (lstrip (reverse s)).

Definition strip (s : str) : str := rstrip (lstrip s).

(** [str.isupper()]: a string of length one is answered by the character
    predicate, the empty string is not upper, and otherwise the scan stops
    with [False] at the first lowercase or titlecase character and
    remembers in [cased] whether an uppercase character was seen. *)
Fixpoint isupper_scan (cased : bool) (s : str) : bool :=
  match s with
  | [] => cased
  | ch :: s' =>
      if Py_UNICODE_ISLOWER ch || Py_UNICODE_ISTITLE ch then false
      else if negb cased && Py_UNICODE_ISUPPER ch then isupper_scan true s'
      else isupper_scan cased s'
  end.

Definition isupper (s : str) : bool :=
  match s with
  | [ch] => Py_UNICODE_ISUPPER ch
  | [] => false
  | _ => isupper_scan false s
  end.

(** [str.isdigit()]: false on the empty string, otherwise every character
    is a digit. *)
Definition isdigit (s : str) : bool :=
  match s with
  | [ch] => Py_UNICODE_ISDIGIT ch
  | [] => false
  | _ => forallb Py_UNICODE_ISDIGIT s
  end.

(** ** Block classification

    The "basic formatting rules" of [create_html_from_text]: an [if] /
    [elif] chain on the block's text.  The role is the branch taken. *)
Definition classify (text : str) : Role :=
  if (length text <? 50) && isupper text then Header
  else if (length text <? 30) && isdigit text then Footer
  else Body.

End StrMethods.


(** ** [sorted(iterable, key=...)]

    The builtin is a stable sort that compares the keys with [<] only.  For a
    key order that is a strict weak order the stable sorted arrangement of a
    list is unique, so the builtin is given as the insertion sort that
    computes it: an element is placed after the elements of the already
    sorted rest whose key is strictly smaller, and before all others. *)
Section Sorted.
Context {A K : Type} (key : A -> K) (lt : K -> K -> bool).

Fixpoint insert_by (a : A) (l : list A) : list A :=
  match l with
  | [] => [a]
  | b :: l' => if lt (key b) (key a) then b :: insert_by a l' else a :: l
  end.

Definition sorted (l : list A) : list A := foldr insert_by [] l.

End Sorted.

(** [<] on the coordinates. *)
Definition Qc_ltb (a b : Qc) : bool := bool_decide (a < b)%Qc.

(** [sorted_blocks = sorted(page, key=lambda x: -x['y'])]. *)
Definition sorted_blocks (page : list block) : list block :=
  sorted (fun x => (- y x)%Qc) Qc_ltb page.

(** ** [os.path] on POSIX *)

Fixpoint rfind_from (c : ascii) (s : string) (i last : Z) : Z :=
  match s with
  | EmptyString => last
  | String a s' => rfind_from c s' (i + 1)%Z (if Ascii.eqb a c then i else last)
  end.

(** [s.rfind(c)]: the index of the last occurrence, or [-1]. *)
Definition rfind (s : string) (c : ascii) : Z := rfind_from c s 0%Z (-1)%Z.

(** The slices [s[:i]] and [s[i:]] for [0 <= i]. *)
Definition slice_to (s : string) (i : Z) : string :=
  substring 0 (Z.to_nat i) s.

Definition slice_from (s : string) (i : Z) : string :=
  substring (Z.to_nat i) (String.length s - Z.to_nat i) s.

Definition basename (p : string) : string :=
  let i := (rfind p "/" + 1)%Z in
  slice_from p i.

(** [os.path.splitext]: the extension starts at the last dot of the last
    component, unless only dots precede it there. *)
Definition splitext (p : string) : string * string :=
  let sepIndex := rfind p "/" in
  let dotIndex := rfind p "." in
  if (sepIndex <? dotIndex)%Z then
    let leading :=
      substring (Z.to_nat (sepIndex + 1)) (Z.to_nat (dotIndex - (sepIndex + 1))) p in
    if forallb (fun a => Ascii.eqb a ".") (list_ascii_of_string leading)
    then (p, "")
    else (slice_to p dotIndex, slice_from p dotIndex)
  else (p, "").

Fixpoint endswith_sep (s : string) : bool :=
  match s with
  | EmptyString => false
  | String a EmptyString => Ascii.eqb a "/"
  | String _ s' => endswith_sep s'
  end.

Definition join (a b : string) : string :=
  match b with
  | String "/" _ => b
  | _ =>
      if bool_decide (a = "") || endswith_sep a then a +:+ b
      else a +:+ "/" +:+ b
  end.

(** The size in bytes of a string encoded as UTF-8. *)
Definition utf8_size (s : str) : nat :=
  sum_list ((fun c : N =>
    if (c <? 128)%N then 1 else if (c <? 2048)%N then 2
    else if (c <? 65536)%N then 3 else 4) <$> s).

(** ** extract_text_from_pdf *)
Section Script.
Context `{UnicodeData} `{Runtime}.

(** The body of the inner loop for one element: a text container whose
    stripped text is not empty contributes one dictionary. *)
Definition element_block (e : element) : option block :=
  match e with
  | LTTextContainer raw x0 y0 w h =>
      let text := strip raw in
      if bool_decide (text = []) then None
      else Some (mk_block text x0 y0 w h)
  | _ => None
  end.

(** [page_text] after the inner loop over [page_layout]. *)
Definition page_text (page_layout : list element) : list block :=
  omap element_block page_layout.

(** The outer loop, with [text_content] as built so far. *)
Fixpoint extract_loop (gen : generator) (text_content : list (list block))
  : Py (list (list block)) :=
  match gen with
  | StopIteration => mret text_content
  | Raises e => raise e
  | Yield page_layout rest =>
      let page_text := page_text page_layout in
      if bool_decide (page_text = []) then
        print (Warning_no_text_found_on_page (length text_content + 1));;
        extract_loop rest text_content
      else
        print (Found_text_blocks_on_page (length page_text)
                 (length text_content + 1));;
        extract_loop rest (text_content ++ [page_text])
  end.

Definition extract_text_from_pdf (pdf_path : string) : Py (list (list block)) :=
  try_except
    (extract_loop (extract_pages pdf_path) [])
    (fun e => print (Error_extracting_text (exn_str e));; raise e).

(** ** create_html_from_text *)

Definition style_string : string :=
"
            .page { margin-bottom: 2em; padding: 1em; border-bottom: 1px solid #ccc; }
            .text-block { margin: 0.5em 0; }
            .header { font-weight: bold; font-size: 1.2em; }
            .footer { font-size: 0.8em; color: #666; }
        ".

(** [head] as it stands when the tree is serialized.  The script links
    [head] into [html] before it appends [style] to it; the tags are shared
    objects, so the appended child is seen through [html] as well. *)
Definition head : PageElement :=
  let head := new_tag "head" ∅ in
  let meta := setitem (new_tag "meta" ∅) "charset" "utf-8" in
  let head := append head meta in
  let title := set_string (new_tag "title" ∅) (str_of_string "Converted PDF") in
  let head := append head title in
  let style := set_string (new_tag "style" ∅) (str_of_string style_string) in
  append head style.

(** The element built for one block in the inner loop. *)
Definition text_block (block : block) : PageElement :=
  let text_block := new_tag "div" {["class" := "text-block"]} in
  let text := text block in
  let text_block :=
    match classify text with
    | Header => setitem text_block "class" "header"
    | Footer => setitem text_block "class" "footer"
    | Body => text_block
    end in
  set_string text_block text.

(** [soup.new_tag('h2', string=f'Page {page_num}')]: the [string] keyword of
    [new_tag] gives the new tag its text (BeautifulSoup 4.13 and later). *)
Definition page_heading (page_num : nat) : PageElement :=
  set_string (new_tag "h2" ∅) (str_of_string ("Page " +:+ pretty page_num)).

(** [page_div] as appended to [body] at the end of one iteration. *)
Definition page_div (page_num : nat) (page : list block) : PageElement :=
  let page_div := new_tag "div" {["class" := "page"]} in
  let page_div := append page_div (page_heading page_num) in
  foldl (fun page_div block => append page_div (text_block block))
    page_div (sorted_blocks page).

(** [enumerate(text_content, start)]. *)
Fixpoint enumerate {A} (l : list A) (start : nat) : list (nat * A) :=
  match l with
  | [] => []
  | a :: l' => (start, a) :: enumerate l' (S start)
  end.

(** The loop over the pages, with [body] as built so far. *)
Fixpoint process_pages (pages : list (nat * list block)) (body : PageElement)
  : Py PageElement :=
  match pages with
  | [] => mret body
  | (page_num, page) :: rest =>
      print (Processing_page page_num (length page));;
      process_pages rest (append body (page_div page_num page))
  end.

Definition create_html_from_text (text_content : list (list block)) : Py str :=
  try_except
    (let soup := Tag "[document]" ∅ [] in
     body ← process_pages (enumerate text_content 1) (new_tag "body" ∅);
     let html := append (append (new_tag "html" ∅) head) body in
     let soup := append soup html in
     match prettify soup with
     | Raise e => raise e
     | Return result =>
         print (Generated_HTML_length (length result));;
         mret result
     end)
    (fun e => print (Error_creating_HTML (exn_str e));; raise e).

(** The tree that [create_html_from_text] hands to the serializer, without
    the printing: [body] after the loop over the pages, and the [soup]. *)
Definition body_of (text_content : list (list block)) : PageElement :=
  foldl (fun body p => append body (page_div p.1 p.2))
    (new_tag "body" ∅) (enumerate text_content 1).

Definition document (text_content : list (list block)) : PageElement :=
  let html := append (append (new_tag "html" ∅) head) (body_of text_content) in
  append (Tag "[document]" ∅ []) html.

(** What the loop of [extract_text_from_pdf] prints for the given page
    layouts when [n] pages are already in [text_content]. *)
Fixpoint extract_events (layouts : list (list element)) (n : nat) : list event :=
  match layouts with
  | [] => []
  | page_layout :: rest =>
      if bool_decide (page_text page_layout = []) then
        Warning_no_text_found_on_page (n + 1) :: extract_events rest n
      else
        Found_text_blocks_on_page (length (page_text page_layout)) (n + 1)
          :: extract_events rest (n + 1)
  end.

(** The pages kept in [text_content]: those with at least one block. *)
Definition kept_pages (layouts : list (list element)) : list (list block) :=
  filter (fun page => page <> []) (page_text <$> layouts).

(** ** convert_pdf_to_html *)

(** [os.makedirs(name, exist_ok=True)]. *)
Definition os_makedirs (name : string) : Py unit := fun w =>
  match os_error (Sys_makedirs name) with
  | Some e => (Raise e, w)
  | None => (Return (), mk_World (stdout w) ({[name]} ∪ dirs w) (files w))
  end.

(** [open(path, 'w', encoding='utf-8')]: the file is created or truncated. *)
Definition open_w (path : string) : Py unit := fun w =>
  match os_error (Sys_open_w path) with
  | Some e => (Raise e, w)
  | None => (Return (), mk_World (stdout w) (dirs w) (<[path := []]> (files w)))
  end.

(** [f.write(s)] on the file opened at [path]; the number of characters
    written is returned. *)
Definition write (path : string) (s : str) : Py nat := fun w =>
  match os_error (Sys_write path) with
  | Some e => (Raise e, w)
  | None => (Return (length s), mk_World (stdout w) (dirs w) (<[path := s]> (files w)))
  end.

Definition os_path_exists (path : string) : Py bool := fun w =>
  (Return (bool_decide (is_Some (files w !! path)) || bool_decide (path ∈ dirs w)), w).

Definition os_path_getsize (path : string) : Py nat := fun w =>
  (Return (utf8_size (default [] (files w !! path))), w).

Definition default_output_dir : string := "html_output".

Definition convert_pdf_to_html (pdf_path output_dir : string) : Py unit :=
  try_except
    (os_makedirs output_dir;;
     let pdf_name := (splitext (basename pdf_path)).1 in
     let output_path := join output_dir (pdf_name +:+ ".html") in
     print (Extracting_text_from pdf_path);;
     text_content ← extract_text_from_pdf pdf_path;
     print (Extracted_pages_of_content (length text_content));;
     if bool_decide (text_content = []) then
       print Warning_no_text_content_extracted;;
       mret ()
     else
       print Converting_to_HTML;;
       html_content ← create_html_from_text text_content;
       if bool_decide (html_content = []) then
         print Warning_no_HTML_content_generated;;
         mret ()
       else
         print (Saving_HTML_to output_path);;
         open_w output_path;;
         bytes_written ← write output_path html_content;
         print (Wrote_bytes_to_file bytes_written);;
         exists_ ← os_path_exists output_path;
         (if exists_ : bool then
            file_size ← os_path_getsize output_path;
            print (File_created_successfully file_size)
          else
            print Warning_file_was_not_created);;
         print (Conversion_complete output_path))
    (fun e => print (Error_during_conversion (exn_str e));; raise e).

(** The path the HTML of [pdf_path] is saved to. *)
Definition output_path (pdf_path output_dir : string) : string :=
  join output_dir ((splitext (basename pdf_path)).1 +:+ ".html").

End Script.


(** ** main *)

(** [s.lower()] on a file name; only the ASCII letters have a lowercase
    form among the characters a [string] holds here. *)
Definition lower_char (a : ascii) : ascii :=
  let n := N_of_ascii a in
  if in_range 65 90 n then ascii_of_N (n + 32) else a.

Fixpoint lower (s : string) : string :=
  match s with
  | EmptyString => EmptyString
  | String a s' => String (lower_char a) (lower s')
  end.

(** [s.endswith(suffix)]. *)
Definition endswith (s suffix : string) : bool :=
  (String.length suffix <=? String.length s) &&
  bool_decide
    (substring (String.length s - String.length suffix) (String.length suffix) s
     = suffix).

(** What [main] and the functions it calls write to standard output: the
    lines of the conversion functions and the two lines of [main]. *)
Inductive line :=
| Script_line (ev : event)
| Processing_file (filename : string)
| Failed_to_process (filename msg : string).

(** The state [main] runs in: standard output and the file system. *)
Record Console := mk_Console {
  lines : list line;
  console_dirs : gset string;
  console_files : gmap string str;
}.

Definition Main (A : Type) : Type := Console -> outcome A * Console.

#[global] Instance Main_ret : MRet Main := fun A a c => (Return a, c).

#[global] Instance Main_bind : MBind Main := fun A B f m c =>
  match m c with
  | (Return a, c') => f a c'
  | (Raise e, c') => (Raise e, c')
  end.

Definition main_try_except {A} (m : Main A) (handler : Exception -> Main A) : Main A :=
  fun c =>
    match m c with
    | (Return a, c') => (Return a, c')
    | (Raise e, c') => handler e c'
    end.

Definition say (l : line) : Main unit := fun c =>
  (Return (), mk_Console (lines c ++ [l]) (console_dirs c) (console_files c)).

(** A call from [main] into the conversion: it runs on the file system of
    the console, and what it prints goes to the console's output. *)
Definition call {A} (m : Py A) : Main A := fun c =>
  let r := m (mk_World [] (console_dirs c) (console_files c)) in
  (r.1, mk_Console (lines c ++ (Script_line <$> stdout r.2)) (dirs r.2) (files r.2)).

Definition pdf_dir : string := "reference".

Section MainScript.
Context `{UnicodeData} `{Runtime}.

(** The loop of [main] over the directory listing. *)
Fixpoint main_loop (filenames : list string) : Main unit :=
  match filenames with
  | [] => mret ()
  | filename :: rest =>
      (if endswith (lower filename) ".pdf" then
         let pdf_path := join pdf_dir filename in
         say (Processing_file filename);;
         main_try_except
           (call (convert_pdf_to_html pdf_path default_output_dir))
           (fun e => say (Failed_to_process filename (exn_str e)))
       else mret ());;
      main_loop rest
  end.

(** [main], given what [os.listdir] answers for a directory: the listing,
    or the exception it raises (no such directory). *)
Definition main (listdir : string -> outcome (list string)) : Main unit :=
  fun c =>
    match listdir pdf_dir with
    | Raise e => (Raise e, c)
    | Return filenames => main_loop filenames c
    end.

End MainScript.

(** The file names [main] converts. *)
Definition is_pdf (filename : string) : bool := endswith (lower filename) ".pdf".

Definition empty_console : Console := mk_Console [] ∅ ∅.


(** ** Concrete inputs *)

(** A runtime in which the decoder yields [gen] for every path, the
    serializer answers [html] and the operating system refuses nothing. *)
Definition runtime_of (gen : generator) (html : outcome str) : Runtime := {|
  extract_pages _ := gen;
  prettify _ := html;
  os_error _ := None;
|}.

(** As [runtime_of], with the operating system refusing the calls for
    which [os] gives an exception. *)
Definition runtime_with (os : syscall -> option Exception) (gen : generator)
    (html : outcome str) : Runtime := {|
  extract_pages _ := gen;
  prettify _ := html;
  os_error := os;
|}.


Definition refuse_open (e : Exception) (c : syscall) : option Exception :=
  match c with Sys_open_w _ => Some e | _ => None end.

(** The generator that yields the given page layouts and is then
    exhausted. *)
Definition yields (layouts : list (list element)) : generator :=
  foldr Yield StopIteration layouts.

Definition empty_world : World := mk_World [] ∅ ∅.

(** A text block at height [yv] on the page. *)
Definition block_at (t : string) (yv : Z) : block :=
  mk_block (str_of_string t) 0 (Qc_of_Z yv) 1 1.

(** A text container at height [yv] on the page. *)
Definition text_at (t : string) (yv : Z) : element :=
  LTTextContainer (str_of_string t) 0 (Qc_of_Z yv) 1 1.

(** * Properties *)

(** ** The string methods on ASCII text *)

Example classify_title :
  @classify ascii_data (str_of_string "PAGE TITLE") = Header.
Proof. reflexivity. Qed.

Example classify_page_number :
  @classify ascii_data (str_of_string "12") = Footer.
Proof. reflexivity. Qed.

Example classify_sentence :
  @classify ascii_data (str_of_string "Total harmonic distortion") = Body.
Proof. reflexivity. Qed.

Example strip_spaces :
  @strip ascii_data (str_of_string "  a b  ") = str_of_string "a b".
Proof. reflexivity. Qed.

Example basename_examples :
  basename "reference/hp8903.pdf" = "hp8903.pdf" /\
  basename "hp8903.pdf" = "hp8903.pdf" /\
  basename "reference/" = "".
Proof. repeat split. Qed.

Example splitext_examples :
  splitext "hp8903.pdf" = ("hp8903", ".pdf") /\
  splitext "manual.v2.PDF" = ("manual.v2", ".PDF") /\
  splitext ".hidden" = (".hidden", "") /\
  splitext "ref.d/manual" = ("ref.d/manual", "").
Proof. repeat split. Qed.

Example join_examples :
  join "html_output" "a.html" = "html_output/a.html" /\
  join "html_output/" "a.html" = "html_output/a.html" /\
  join "" "a.html" = "a.html" /\
  join "html_output" "/a.html" = "/a.html".
Proof. repeat split. Qed.

Example output_path_example :
  output_path "reference/hp8903.pdf" default_output_dir = "html_output/hp8903.html".
Proof. reflexivity. Qed.

Section StrFacts.
Context `{UnicodeData}.

(** The scan answers [cased] or better: it is true exactly when no
    lowercase or titlecase character occurs and an uppercase character was
    seen before or is seen during the scan. *)
Lemma isupper_scan_true (cased : bool) (s : str) :
  isupper_scan cased s = true <->
  Forall (fun c => Py_UNICODE_ISLOWER c = false /\ Py_UNICODE_ISTITLE c = false) s /\
  (cased = true \/ Exists (fun c => Py_UNICODE_ISUPPER c = true) s).
Proof.
  revert cased. induction s as [|ch s IH]; intros cased; simpl.
  - split.
    + intros ->. split; [constructor | by left].
    + intros [_ [-> | Hex]]; [done | inversion Hex].
  - destruct (Py_UNICODE_ISLOWER ch) eqn:Hl; simpl.
    { split; [done | intros [Hall _]]. inversion Hall as [|? ? [? ?]]; congruence. }
    destruct (Py_UNICODE_ISTITLE ch) eqn:Ht; simpl.
    { split; [done | intros [Hall _]]. inversion Hall as [|? ? [? ?]]; congruence. }
    destruct cased; simpl.
    + rewrite IH. split.
      * intros [Hall _]. split; [by constructor | by left].
      * intros [Hall _]. inversion Hall; subst. split; [done | by left].
    + destruct (Py_UNICODE_ISUPPER ch) eqn:Hu.
      * rewrite IH. split.
        -- intros [Hall _]. split; [by constructor | right; by constructor].
        -- intros [Hall _]. inversion Hall; subst. split; [done | by left].
      * rewrite IH. split.
        -- intros [Hall [? | Hex]]; [done |].
           split; [by constructor | right; by constructor].
        -- intros [Hall [? | Hex]]; [done |]. inversion Hall; subst.
           split; [done |]. right. inversion Hex; subst; [congruence | done].
Qed.

(** [isupper] holds when no character is lowercase or titlecase and some
    character is uppercase. *)
Lemma isupper_intro (s : str) :
  Forall (fun c => Py_UNICODE_ISLOWER c = false /\ Py_UNICODE_ISTITLE c = false) s ->
  Exists (fun c => Py_UNICODE_ISUPPER c = true) s ->
  isupper s = true.
Proof.
  intros Hall Hex. destruct s as [|ch [|ch' s]].
  - inversion Hex.
  - simpl. inversion Hex as [? ? Hu | ? ? Hn]; subst; [done | inversion Hn].
  - apply (isupper_scan_true false). split; [done | by right].
Qed.

(** [isupper] needs an uppercase character. *)
Lemma isupper_elim (s : str) :
  isupper s = true -> Exists (fun c => Py_UNICODE_ISUPPER c = true) s.
Proof.
  destruct s as [|ch [|ch' s]]; simpl; [done | by constructor |].
  intros Hs. apply (isupper_scan_true false (ch :: ch' :: s)) in Hs.
  destruct Hs as [_ [? | Hex]]; done.
Qed.

Lemma isdigit_intro (s : str) :
  s <> [] -> Forall (fun c => Py_UNICODE_ISDIGIT c = true) s -> isdigit s = true.
Proof.
  intros Hne Hall. destruct s as [|ch [|ch' s]]; [done | | ].
  - simpl. by inversion Hall.
  - unfold isdigit. apply forallb_forall. intros c Hc.
    rewrite Forall_forall in Hall. apply Hall. by apply list_elem_of_In.
Qed.

End StrFacts.

(** ** Classification *)

(** C1, as stated, fails: the text "123-456" is shorter than 50 characters
    and has no alphabetic character, so each of its alphabetic characters is
    uppercase, yet it is not classified Header (it is Body): [isupper] is
    false on a string without an uppercase character. *)
Lemma classify_uncased_not_Header :
  let text := str_of_string "123-456" in
  length text < 50 /\
  Forall (fun c => @Py_UNICODE_ISALPHA ascii_data c = true ->
                   @Py_UNICODE_ISUPPER ascii_data c = true) text /\
  @classify ascii_data text = Body /\
  @classify ascii_data text <> Header.
Proof.
  simpl. split; [lia |]. split; [| by split].
  repeat constructor; vm_compute; discriminate.
Qed.

(** C1 (amended): a text of fewer than 50 characters with no lowercase or
    titlecase character and at least one uppercase character is classified
    Header. *)
Theorem classify_Header `{UnicodeData} (text : str) :
  length text < 50 ->
  Forall (fun c => Py_UNICODE_ISLOWER c = false /\ Py_UNICODE_ISTITLE c = false) text ->
  Exists (fun c => Py_UNICODE_ISUPPER c = true) text ->
  classify text = Header.
Proof.
  intros Hlen Hall Hex. unfold classify.
  apply Nat.ltb_lt in Hlen. rewrite Hlen. simpl.
  by rewrite (isupper_intro text Hall Hex).
Qed.

Lemma classify_Header_witness :
  let text := str_of_string "SECTION 3-2" in
  length text < 50 /\ @classify ascii_data text = Header.
Proof.
  simpl. split; [lia |].
  apply (@classify_Header ascii_data (str_of_string "SECTION 3-2")).
  - simpl. lia.
  - repeat constructor.
  - repeat constructor.
Defined.

(** C2, as stated, fails: the text "123" is made of digits only, so under
    the claim's reading of the Header rule (fewer than 50 characters, every
    alphabetic character uppercase) it qualifies as Header and Header should
    win; it is classified Footer. *)
Lemma classify_digits_not_Header :
  let text := str_of_string "123" in
  text <> [] /\ length text < 30 /\
  Forall (fun c => @Py_UNICODE_ISDIGIT ascii_data c = true) text /\
  (length text < 50 /\
   Forall (fun c => @Py_UNICODE_ISALPHA ascii_data c = true ->
                    @Py_UNICODE_ISUPPER ascii_data c = true) text) /\
  @classify ascii_data text = Footer /\
  @classify ascii_data text <> Header.
Proof.
  simpl. split; [done |]. split; [lia |].
  split; [repeat constructor |].
  split; [| by split].
  split; [lia |]. repeat constructor; vm_compute; discriminate.
Qed.

(** C2 (amended): a non-empty text of fewer than 30 characters, all of them
    digits, is classified Footer; the Header rule does not apply to it,
    since it needs an uppercase character and a digit is not one. *)
Theorem classify_Footer `{UnicodeData} (text : str) :
  (forall c, Py_UNICODE_ISDIGIT c = true -> Py_UNICODE_ISUPPER c = false) ->
  text <> [] ->
  length text < 30 ->
  Forall (fun c => Py_UNICODE_ISDIGIT c = true) text ->
  classify text = Footer.
Proof.
  intros Hdb Hne Hlen Hall. unfold classify.
  assert (isupper text = false) as ->.
  { destruct (isupper text) eqn:Hup; [| done].
    apply isupper_elim in Hup. apply Exists_exists in Hup as (c & Hc & Hu).
    rewrite Forall_forall in Hall. rewrite (Hdb c (Hall c Hc)) in Hu. done. }
  rewrite andb_false_r.
  apply Nat.ltb_lt in Hlen. rewrite Hlen. simpl.
  by rewrite (isdigit_intro text Hne Hall).
Qed.

Lemma classify_Footer_witness :
  @classify ascii_data (str_of_string "42") = Footer.
Proof.
  apply (@classify_Footer ascii_data (str_of_string "42")).
  - intros c. unfold Py_UNICODE_ISDIGIT, Py_UNICODE_ISUPPER, ascii_data, in_range.
    intros Hd. apply andb_prop in Hd as [Hlo Hhi].
    apply N.leb_le in Hhi. apply andb_false_iff. left. apply N.leb_gt. lia.
  - discriminate.
  - simpl. lia.
  - repeat constructor.
Defined.

(** ** The element of a block *)

Section BlockFacts.
Context `{UnicodeData}.

Lemma text_block_shape (b : block) :
  text_block b =
  Tag "div"
    {["class" := match classify (text b) with
                 | Header => "header"
                 | Footer => "footer"
                 | Body => "text-block"
                 end]}
    [NavigableString (text b)].
Proof.
  unfold text_block. destruct (classify (text b)); simpl;
    by rewrite ?insert_singleton_eq.
Qed.

End BlockFacts.

(** C7, as stated, fails: the element of the block "CONTENTS", a Header,
    has the single class [header]; the class [text-block] given to the tag
    when it is created is replaced by the assignment to [class], not kept
    beside it. *)
Lemma header_block_lacks_text_block :
  let b := block_at "CONTENTS" 700 in
  @classify ascii_data (text b) = Header /\
  classes (@text_block ascii_data b) = ["header"] /\
  ~ "text-block" ∈ classes (@text_block ascii_data b).
Proof.
  simpl. split; [reflexivity |].
  rewrite text_block_shape.
  assert (@classify ascii_data (text (block_at "CONTENTS" 700)) = Header) as ->
    by reflexivity.
  unfold classes, tag_attrs. rewrite lookup_singleton_eq.
  split; [reflexivity |].
  intros Hin. apply list_elem_of_singleton in Hin. discriminate.
Qed.

(** C7 (amended): the element of a block is a [div] holding the block's
    text, with exactly one class: [header] for a Header, [footer] for a
    Footer and [text-block] for a Body block. *)
Theorem text_block_classes `{UnicodeData} (b : block) :
  tag_name (text_block b) = "div" /\
  tag_string (text_block b) = Some (text b) /\
  classes (text_block b) =
    match classify (text b) with
    | Header => ["header"]
    | Footer => ["footer"]
    | Body => ["text-block"]
    end.
Proof.
  rewrite text_block_shape. split; [done |]. split; [done |].
  unfold classes, tag_attrs. rewrite lookup_singleton_eq.
  by destruct (classify (text b)).
Qed.

(** ** [sorted] *)

Section SortedFacts.
Context {A K : Type} (key : A -> K) (lt : K -> K -> bool).

Lemma insert_by_perm (a : A) (l : list A) : insert_by key lt a l ≡ₚ a :: l.
Proof.
  induction l as [|b l IH]; simpl; [done |].
  destruct (lt (key b) (key a)); [| done].
  rewrite IH. apply Permutation_swap.
Qed.

Lemma sorted_perm (l : list A) : sorted key lt l ≡ₚ l.
Proof.
  induction l as [|a l IH]; simpl; [done |].
  fold (sorted key lt l). by rewrite insert_by_perm, IH.
Qed.

(** Inserting does not reorder a class of elements none of which is
    strictly below another: the new element only overtakes elements whose
    key is strictly smaller than its own. *)
Lemma insert_by_filter (P : A -> Prop) `{!forall a, Decision (P a)} (a : A) (l : list A) :
  (forall b, P a -> P b -> lt (key b) (key a) = false) ->
  filter P (insert_by key lt a l) = filter P (a :: l).
Proof.
  intros Hcls. induction l as [|b l IH]; simpl; [done |].
  destruct (lt (key b) (key a)) eqn:Hlt; [| done].
  rewrite filter_cons, IH, !filter_cons.
  destruct (decide (P a)) as [Ha|Ha], (decide (P b)) as [Hb|Hb]; try done.
  rewrite (Hcls b Ha Hb) in Hlt. done.
Qed.

Lemma sorted_filter (P : A -> Prop) `{!forall a, Decision (P a)} (l : list A) :
  (forall a b, P a -> P b -> lt (key b) (key a) = false) ->
  filter P (sorted key lt l) = filter P l.
Proof.
  intros Hcls. induction l as [|a l IH]; simpl; [done |].
  fold (sorted key lt l).
  rewrite insert_by_filter by (intros b; apply Hcls).
  by rewrite !filter_cons, IH.
Qed.

End SortedFacts.

Lemma Qc_ltb_opp (a b : Qc) : Qc_ltb (- a) (- b) = bool_decide (b < a)%Qc.
Proof.
  unfold Qc_ltb. apply bool_decide_ext. split; intros Hlt.
  - destruct (Qclt_le_dec b a) as [|Hle]; [done |].
    apply Qcopp_le_compat in Hle. by apply Qclt_not_le in Hlt.
  - destruct (Qclt_le_dec (- a) (- b)) as [|Hle]; [done |].
    apply Qcopp_le_compat in Hle. rewrite !Qcopp_involutive in Hle.
    by apply Qclt_not_le in Hlt.
Qed.

(** An element earlier in a strongly sorted list is related to every later
    one. *)
Lemma StronglySorted_lookup_lt {A} (R : relation A) (l : list A) (i j : nat) (a b : A) :
  StronglySorted R l -> l !! i = Some a -> l !! j = Some b -> i < j -> R a b.
Proof.
  intros Hs. revert i j. induction Hs as [|c l Hs IH Hall]; intros i j Hi Hj Hij.
  - done.
  - destruct j as [|j]; [lia |]. simpl in Hj. destruct i as [|i].
    + simpl in Hi. injection Hi as ->.
      rewrite Forall_forall in Hall. apply Hall. by eapply list_elem_of_lookup_2.
    + simpl in Hi. apply (IH i j); [done | done | lia].
Qed.

Lemma insert_by_descending (a : block) (l : list block) :
  StronglySorted (fun a b => (y b <= y a)%Qc) l ->
  StronglySorted (fun a b => (y b <= y a)%Qc)
    (insert_by (fun x => (- y x)%Qc) Qc_ltb a l).
Proof.
  induction 1 as [|b l Hs IH Hall]; simpl.
  - repeat constructor.
  - rewrite Qc_ltb_opp. case_bool_decide as Hlt.
    + constructor; [done |].
      rewrite insert_by_perm. constructor; [by apply Qclt_le_weak | done].
    + apply Qcnot_lt_le in Hlt. constructor; [by constructor |].
      constructor; [done |].
      eapply Forall_impl; [exact Hall |]. simpl. intros c Hc.
      by eapply Qcle_trans.
Qed.

Lemma sorted_blocks_descending (page : list block) :
  StronglySorted (fun a b => (y b <= y a)%Qc) (sorted_blocks page).
Proof.
  unfold sorted_blocks. induction page as [|a page IH]; simpl; [constructor |].
  by apply insert_by_descending.
Qed.

Lemma sorted_blocks_stable (page : list block) (v : Qc) :
  filter (fun b => y b = v) (sorted_blocks page) = filter (fun b => y b = v) page.
Proof.
  unfold sorted_blocks. apply sorted_filter.
  intros a b -> Hb. rewrite Hb. unfold Qc_ltb.
  apply bool_decide_eq_false. apply Qcle_not_lt, Qcle_refl.
Qed.

(** Two arrangements in descending order of [y] that keep the same order
    within every class of equal [y] are the same list: whatever stable
    sorting procedure the interpreter runs, it returns [sorted_blocks]. *)
Lemma stable_descending_unique (l1 l2 : list block) :
  StronglySorted (fun a b => (y b <= y a)%Qc) l1 ->
  StronglySorted (fun a b => (y b <= y a)%Qc) l2 ->
  (forall v : Qc, filter (fun b => y b = v) l1 = filter (fun b => y b = v) l2) ->
  l1 = l2.
Proof.
  intros Hs1. revert l2. induction Hs1 as [|a l1 Hs1 IH Hall1]; intros l2 Hs2 Hf.
  - destruct l2 as [|h l2]; [done |].
    specialize (Hf (y h)). rewrite filter_nil, filter_cons_True in Hf; done.
  - destruct Hs2 as [|h l2 Hs2 Hall2].
    { specialize (Hf (y a)). rewrite filter_nil, filter_cons_True in Hf; done. }
    assert (y h = y a) as Hy.
    { apply Qcle_antisym.
      - assert (h ∈ filter (fun b => y b = y h) (a :: l1)) as Hin.
        { rewrite Hf, filter_cons_True by done. left. }
        apply list_elem_of_filter in Hin as [_ Hin].
        apply elem_of_cons in Hin as [-> | Hin]; [apply Qcle_refl |].
        rewrite Forall_forall in Hall1. by apply Hall1.
      - assert (a ∈ filter (fun b => y b = y a) (h :: l2)) as Hin.
        { rewrite <- Hf, filter_cons_True by done. left. }
        apply list_elem_of_filter in Hin as [_ Hin].
        apply elem_of_cons in Hin as [-> | Hin]; [apply Qcle_refl |].
        rewrite Forall_forall in Hall2. by apply Hall2. }
    pose proof (Hf (y a)) as Hfa.
    rewrite !filter_cons_True in Hfa by done.
    injection Hfa as -> Hfa. f_equal. apply IH; [done |].
    intros v. destruct (decide (y h = v)) as [<- | Hne]; [done |].
    specialize (Hf v). by rewrite !filter_cons_False in Hf.
Qed.

(** ** Reading order *)

(** C3: the blocks of a page are rearranged (nothing lost, nothing added)
    in descending order of [y], so that a block with a strictly larger [y]
    stands strictly earlier; the blocks of any one [y] keep the order in
    which they were extracted, whatever their [x]. *)
Theorem sorted_blocks_reading_order (page : list block) :
  sorted_blocks page ≡ₚ page /\
  StronglySorted (fun a b => (y b <= y a)%Qc) (sorted_blocks page) /\
  (forall (i j : nat) (a b : block),
     sorted_blocks page !! i = Some a -> sorted_blocks page !! j = Some b ->
     (y b < y a)%Qc -> i < j) /\
  (forall v : Qc,
     filter (fun b => y b = v) (sorted_blocks page) = filter (fun b => y b = v) page).
Proof.
  split; [apply sorted_perm |].
  split; [apply sorted_blocks_descending |].
  split; [| apply sorted_blocks_stable].
  intros i j a b Hi Hj Hlt.
  destruct (decide (i < j)) as [|Hge]; [done |]. exfalso.
  destruct (decide (i = j)) as [-> | Hne].
  - rewrite Hi in Hj. injection Hj as ->. apply Qclt_not_le in Hlt.
    apply Hlt, Qcle_refl.
  - assert (j < i) as Hji by lia.
    pose proof (StronglySorted_lookup_lt _ _ _ _ _ _
                  (sorted_blocks_descending page) Hj Hi Hji) as Hle.
    simpl in Hle. by apply Qclt_not_le in Hlt.
Qed.

(** C4, as stated, fails: for blocks at heights 10, 30, 10, 20 the order is
    not "30, then the two at 10, then 20"; the block at 20 comes second. *)
Lemma heights_10_30_10_20_not_grouped :
  let a := block_at "a" 10 in
  let b := block_at "b" 30 in
  let c := block_at "c" 10 in
  let d := block_at "d" 20 in
  sorted_blocks [a; b; c; d] = [b; d; a; c] /\
  sorted_blocks [a; b; c; d] <> [b; a; c; d].
Proof. simpl. split; [reflexivity |]. vm_compute. discriminate. Qed.

(** C4 (amended): four blocks at heights 10, 30, 10, 20, in that order, come
    out as the block at 30, then the block at 20, then the two blocks at 10
    in their original order. *)
Theorem sorted_blocks_10_30_10_20 (t1 t2 t3 t4 : str)
    (x1 x2 x3 x4 w1 w2 w3 w4 h1 h2 h3 h4 : Qc) :
  let a := mk_block t1 x1 (Qc_of_Z 10) w1 h1 in
  let b := mk_block t2 x2 (Qc_of_Z 30) w2 h2 in
  let c := mk_block t3 x3 (Qc_of_Z 10) w3 h3 in
  let d := mk_block t4 x4 (Qc_of_Z 20) w4 h4 in
  sorted_blocks [a; b; c; d] = [b; d; a; c].
Proof. reflexivity. Qed.

(** ** The element of a page *)

Section PageFacts.
Context `{UnicodeData}.

Lemma foldl_append (t : PageElement) (bs : list block) (n : string)
    (a : gmap string string) (c : list PageElement) :
  t = Tag n a c ->
  foldl (fun page_div block => append page_div (text_block block)) t bs =
  Tag n a (c ++ (text_block <$> bs)).
Proof.
  revert t c. induction bs as [|b bs IH]; intros t c ->; simpl.
  - by rewrite app_nil_r.
  - rewrite (IH _ (c ++ [text_block b])) by done. by rewrite <- app_assoc.
Qed.

Lemma page_div_shape (page_num : nat) (page : list block) :
  page_div page_num page =
  Tag "div" {["class" := "page"]}
    (page_heading page_num :: (text_block <$> sorted_blocks page)).
Proof.
  unfold page_div. by erewrite foldl_append by reflexivity.
Qed.

Lemma tag_string_text_block (b : block) : tag_string (text_block b) = Some (text b).
Proof. by rewrite text_block_shape. Qed.

End PageFacts.

(** C8: the element of a page holds, after its heading, as many block
    elements as the page has blocks, and the texts of these elements are the
    texts of the page's blocks, each once. *)
Theorem page_div_blocks `{UnicodeData} (page_num : nat) (page : list block) :
  exists blocks : list PageElement,
    tag_contents (page_div page_num page) = page_heading page_num :: blocks /\
    length blocks = length page /\
    tag_string <$> blocks ≡ₚ (fun b => Some (text b)) <$> page.
Proof.
  exists (text_block <$> sorted_blocks page).
  rewrite page_div_shape. split; [done |].
  pose proof (sorted_perm (fun x : block => (- y x)%Qc) Qc_ltb page) as Hperm.
  fold (sorted_blocks page) in Hperm.
  split.
  - by rewrite length_fmap, Hperm.
  - rewrite <- list_fmap_compose.
    rewrite (list_fmap_ext (tag_string ∘ text_block) (fun b => Some (text b))
               (sorted_blocks page))
      by (intros; apply tag_string_text_block).
    by rewrite Hperm.
Qed.

(** ** Running the script *)

Lemma emit_emit (e1 e2 : list event) (w : World) :
  emit e2 (emit e1 w) = emit (e1 ++ e2) w.
Proof. unfold emit. simpl. by rewrite app_assoc. Qed.

Lemma emit_nil (w : World) : emit [] w = w.
Proof. destruct w. unfold emit. simpl. by rewrite app_nil_r. Qed.

Lemma bind_run {A B} (m : Py A) (f : A -> Py B) (w : World) :
  (m ≫= f) w =
  match m w with
  | (Return a, w') => f a w'
  | (Raise e, w') => (Raise e, w')
  end.
Proof. done. Qed.

Lemma print_bind {B} (ev : event) (k : Py B) (w : World) :
  (print ev;; k) w = k (emit [ev] w).
Proof. done. Qed.

Section RunFacts.
Context `{UnicodeData} `{Runtime}.

(** The loop over the generator: it raises what the generator raises, and
    otherwise returns the pages kept, having printed one line per layout. *)
Lemma extract_loop_run (gen : generator) (text_content : list (list block)) (w : World) :
  extract_loop gen text_content w =
  (match raised gen with
   | Some e => Raise e
   | None => Return (text_content ++ kept_pages (yielded gen))
   end,
   emit (extract_events (yielded gen) (length text_content)) w).
Proof.
  revert text_content w.
  induction gen as [|page_layout rest IH|e]; intros text_content w; simpl.
  - by rewrite emit_nil, app_nil_r.
  - unfold kept_pages. rewrite fmap_cons, filter_cons.
    case_bool_decide as Hempty.
    + rewrite print_bind, IH, emit_emit.
      rewrite decide_False by (by intros Hne).
      done.
    + rewrite print_bind, IH, emit_emit, length_app. simpl.
      rewrite decide_True by done.
      by rewrite <- app_assoc.
  - by rewrite emit_nil.
Qed.

Lemma extract_text_from_pdf_run (pdf_path : string) (w : World) :
  extract_text_from_pdf pdf_path w =
  match raised (extract_pages pdf_path) with
  | Some e =>
      (Raise e,
       emit (extract_events (yielded (extract_pages pdf_path)) 0
               ++ [Error_extracting_text (exn_str e)]) w)
  | None =>
      (Return (kept_pages (yielded (extract_pages pdf_path))),
       emit (extract_events (yielded (extract_pages pdf_path)) 0) w)
  end.
Proof.
  unfold extract_text_from_pdf, try_except. rewrite extract_loop_run. simpl.
  destruct (raised (extract_pages pdf_path)); [| done].
  rewrite print_bind. unfold raise. by rewrite emit_emit.
Qed.

Lemma process_pages_run (pages : list (nat * list block)) (body : PageElement) (w : World) :
  process_pages pages body w =
  (Return (foldl (fun body p => append body (page_div p.1 p.2)) body pages),
   emit ((fun p => Processing_page p.1 (length p.2)) <$> pages) w).
Proof.
  revert body w. induction pages as [|[page_num page] pages IH]; intros body w; simpl.
  - by rewrite emit_nil.
  - by rewrite print_bind, IH, emit_emit.
Qed.

(** [create_html_from_text] returns what the serializer makes of
    [document text_content], and raises what it raises. *)
Lemma create_html_from_text_run (text_content : list (list block)) (w : World) :
  create_html_from_text text_content w =
  let processing :=
    (fun p => Processing_page p.1 (length p.2)) <$> enumerate text_content 1 in
  match prettify (document text_content) with
  | Return result =>
      (Return result, emit (processing ++ [Generated_HTML_length (length result)]) w)
  | Raise e =>
      (Raise e, emit (processing ++ [Error_creating_HTML (exn_str e)]) w)
  end.
Proof.
  unfold create_html_from_text, try_except. rewrite bind_run, process_pages_run.
  unfold document, body_of. simpl.
  destruct (prettify _) as [result | e].
  - rewrite print_bind. unfold mret, Py_ret. by rewrite emit_emit.
  - unfold raise. rewrite print_bind. by rewrite emit_emit.
Qed.

End RunFacts.

Lemma yielded_yields (layouts : list (list element)) :
  yielded (yields layouts) = layouts.
Proof. induction layouts as [|l ls IH]; simpl; [done | by rewrite IH]. Qed.

Lemma raised_yields (layouts : list (list element)) :
  raised (yields layouts) = None.
Proof. induction layouts as [|l ls IH]; simpl; done. Qed.

Section DocumentFacts.
Context `{UnicodeData}.

Lemma foldl_append_pages (l : list (list block)) (start : nat) (n : string)
    (a : gmap string string) (c : list PageElement) :
  foldl (fun body p => append body (page_div p.1 p.2)) (Tag n a c) (enumerate l start) =
  Tag n a (c ++ imap (fun i page => page_div (start + i) page) l).
Proof.
  revert start c. induction l as [|page l IH]; intros start c; simpl.
  - by rewrite app_nil_r.
  - rewrite IH, <- app_assoc. simpl. rewrite Nat.add_0_r.
    do 3 f_equal. apply imap_ext. intros i p _. simpl. f_equal. lia.
Qed.

(** [body] holds one element per page of [text_content], numbered from 1 in
    the order of [text_content]. *)
Lemma body_of_shape (text_content : list (list block)) :
  body_of text_content =
  Tag "body" ∅ (imap (fun i page => page_div (S i) page) text_content).
Proof. unfold body_of, new_tag. by rewrite foldl_append_pages. Qed.

(** The headings of the page elements count up from the first number. *)
Lemma page_numbers (l : list (list block)) (start : nat) :
  (fun d => tag_contents d !! 0 ≫= tag_string) <$>
    imap (fun i page =>
            Tag "div" {["class" := "page"]}
              (page_heading (start + i) :: (text_block <$> sorted_blocks page))) l =
  (fun n => Some (str_of_string ("Page " +:+ pretty n))) <$> seq start (length l).
Proof.
  revert start. induction l as [|page l IH]; intros start; simpl; [done |].
  rewrite Nat.add_0_r. f_equal.
  etrans; [| exact (IH (S start))]. unfold fmap. f_equal.
  apply imap_ext. intros i p _. simpl. by rewrite Nat.add_succ_r.
Qed.

Lemma kept_pages_nonempty (layouts : list (list element)) :
  Forall (fun page => page <> []) (kept_pages layouts).
Proof.
  apply Forall_forall. intros page Hin.
  by apply list_elem_of_filter in Hin as [? _].
Qed.

Lemma extract_events_app (l1 l2 : list (list element)) (n : nat) :
  extract_events (l1 ++ l2) n =
  extract_events l1 n ++ extract_events l2 (n + length (kept_pages l1)).
Proof.
  revert n. induction l1 as [|page_layout l1 IH]; intros n; simpl.
  - by rewrite Nat.add_0_r.
  - unfold kept_pages. rewrite fmap_cons, filter_cons. fold (kept_pages l1).
    case_bool_decide as Hempty.
    + rewrite decide_False by (by intros Hne). by rewrite IH.
    + rewrite decide_True by done. rewrite IH. simpl.
      do 3 f_equal. lia.
Qed.

(** The number printed for a page without text is one more than the number
    of pages with text before it. *)
Lemma extract_events_warning (before after : list (list element))
    (page_layout : list element) :
  page_text page_layout = [] ->
  extract_events (before ++ page_layout :: after) 0 =
  extract_events before 0
    ++ Warning_no_text_found_on_page (length (kept_pages before) + 1)
    :: extract_events after (length (kept_pages before)).
Proof.
  intros Hempty. rewrite extract_events_app. simpl.
  by rewrite bool_decide_eq_true_2.
Qed.

End DocumentFacts.

(** ** Pages without text *)

(** C5: when the decoder yields the page layouts without failing,
    [text_content] is the list of the pages that have a block, in their
    order, so a page without block is dropped; the tree handed to the
    serializer has one [div] of class [page] per page kept, headed
    "Page 1", "Page 2", ... by position among the pages kept and holding
    that page's block elements. *)
Theorem empty_pages_dropped_and_renumbered `{UnicodeData} `{Runtime}
    (pdf_path : string) (layouts : list (list element)) (w w' : World) :
  extract_pages pdf_path = yields layouts ->
  let text_content := filter (fun page => page <> []) (page_text <$> layouts) in
  (extract_text_from_pdf pdf_path w).1 = Return text_content /\
  Forall (fun page => page <> []) text_content /\
  (create_html_from_text text_content w').1 = prettify (document text_content) /\
  tag_contents (document text_content) = [Tag "html" ∅ [head; body_of text_content]] /\
  tag_contents (body_of text_content) =
    imap (fun i page =>
            Tag "div" {["class" := "page"]}
              (page_heading (S i) :: (text_block <$> sorted_blocks page)))
         text_content /\
  (fun d => tag_contents d !! 0 ≫= tag_string) <$> tag_contents (body_of text_content) =
    (fun n => Some (str_of_string ("Page " +:+ pretty n))) <$> seq 1 (length text_content).
Proof.
  intros Hgen text_content.
  pose proof (yielded_yields layouts) as Hy.
  pose proof (raised_yields layouts) as Hr.
  split.
  { rewrite extract_text_from_pdf_run, Hgen, Hr, Hy. done. }
  split; [apply kept_pages_nonempty |].
  split.
  { rewrite create_html_from_text_run. simpl. by destruct (prettify _). }
  split; [done |].
  assert (tag_contents (body_of text_content) =
          imap (fun i page =>
                  Tag "div" {["class" := "page"]}
                    (page_heading (S i) :: (text_block <$> sorted_blocks page)))
               text_content) as Hbody.
  { rewrite body_of_shape. simpl. apply imap_ext. intros i page _.
    apply page_div_shape. }
  split; [done |].
  rewrite Hbody. apply (page_numbers text_content 1).
Qed.

Lemma empty_pages_dropped_and_renumbered_witness :
  let layouts :=
    [[text_at "INTRODUCTION" 700; LTLine]; [LTRect]; [text_at "Results" 650]] in
  let rt := runtime_of (yields layouts) (Return []) in
  let text_content := [[block_at "INTRODUCTION" 700]; [block_at "Results" 650]] in
  (@extract_text_from_pdf ascii_data rt "doc.pdf" empty_world).1 = Return text_content /\
  (fun d => tag_contents d !! 0 ≫= tag_string) <$>
    tag_contents (@body_of ascii_data text_content) =
  [Some (str_of_string "Page 1"); Some (str_of_string "Page 2")].
Proof.
  destruct (@empty_pages_dropped_and_renumbered ascii_data
              (runtime_of
                 (yields [[text_at "INTRODUCTION" 700; LTLine]; [LTRect];
                          [text_at "Results" 650]])
                 (Return []))
              "doc.pdf"
              [[text_at "INTRODUCTION" 700; LTLine]; [LTRect]; [text_at "Results" 650]]
              empty_world empty_world eq_refl)
    as (Hextract & _ & _ & _ & _ & Hnumbers).
  split; [exact Hextract | exact Hnumbers].
Defined.

(** C6 (observed): for a document whose pages 1 and 2 have no text and whose
    page 3 has, extraction goes on to the end and returns the one page with
    text, but both warnings carry the number 1: the number printed is one
    more than the count of pages kept so far, not the index of the page in
    the document. *)
Theorem warning_number_after_empty_page :
  let layouts := [[LTLine]; [LTRect]; [text_at "Hello" 700]] in
  let rt := runtime_of (yields layouts) (Return []) in
  @extract_text_from_pdf ascii_data rt "doc.pdf" empty_world =
  (Return [[block_at "Hello" 700]],
   mk_World
     [Warning_no_text_found_on_page 1;
      Warning_no_text_found_on_page 1;
      Found_text_blocks_on_page 1 1]
     ∅ ∅).
Proof. reflexivity. Qed.

(** ** Conversion *)

Section ConvertFacts.
Context `{UnicodeData} `{Runtime}.

Lemma kept_pages_all_empty (layouts : list (list element)) :
  Forall (fun page_layout => page_text page_layout = []) layouts ->
  kept_pages layouts = [].
Proof.
  unfold kept_pages. induction 1 as [|l ls Hl _ IH]; [done |].
  rewrite fmap_cons, filter_cons, Hl. by rewrite decide_False by (by intros Hne).
Qed.

(** A run of the handler of [convert_pdf_to_html]. *)
Lemma handler_run (e : Exception) (w : World) :
  (print (Error_during_conversion (exn_str e));; raise e) w =
  (@Raise unit e, emit [Error_during_conversion (exn_str e)] w).
Proof. done. Qed.

End ConvertFacts.

(** C9: when the output directory can be made and the decoder yields only
    pages without text and does not fail, the conversion returns normally,
    the last line it prints is the warning that no text content was
    extracted, and no file is created or changed (the output directory is
    made). *)
Theorem convert_without_text `{UnicodeData} `{Runtime}
    (pdf_path output_dir : string) (w : World) :
  os_error (Sys_makedirs output_dir) = None ->
  raised (extract_pages pdf_path) = None ->
  Forall (fun page_layout => page_text page_layout = [])
    (yielded (extract_pages pdf_path)) ->
  exists (w' : World) (evs : list event),
    convert_pdf_to_html pdf_path output_dir w = (Return (), w') /\
    files w' = files w /\
    dirs w' = {[output_dir]} ∪ dirs w /\
    stdout w' = stdout w ++ evs ++ [Warning_no_text_content_extracted].
Proof.
  intros Hmk Hr Hempty.
  eexists _, ([Extracting_text_from pdf_path]
              ++ extract_events (yielded (extract_pages pdf_path)) 0
              ++ [Extracted_pages_of_content 0]).
  unfold convert_pdf_to_html, try_except.
  rewrite bind_run. unfold os_makedirs at 1. rewrite Hmk.
  rewrite print_bind, bind_run, extract_text_from_pdf_run, Hr.
  rewrite (kept_pages_all_empty _ Hempty). simpl.
  split; [reflexivity |]. simpl. split; [done |]. split; [done |].
  by rewrite <- !app_assoc.
Qed.

Lemma convert_without_text_witness :
  let rt := runtime_of (yields [[LTLine]; [text_at "   " 700]]) (Return []) in
  exists (w' : World) (evs : list event),
    @convert_pdf_to_html ascii_data rt "reference/blank.pdf" default_output_dir
      empty_world = (Return (), w') /\
    files w' = files empty_world /\
    dirs w' = {[default_output_dir]} ∪ dirs empty_world /\
    stdout w' = stdout empty_world ++ evs ++ [Warning_no_text_content_extracted].
Proof.
  apply (@convert_without_text ascii_data
           (runtime_of (yields [[LTLine]; [text_at "   " 700]]) (Return []))
           "reference/blank.pdf" default_output_dir empty_world).
  - reflexivity.
  - reflexivity.
  - repeat constructor.
Defined.

(** C10: when the decoder raises, or when the serializer raises on the tree
    of a document with text, the conversion raises and the files are what
    they were before: the output file is neither created nor overwritten.
    Only the output directory may have been made. *)
Theorem convert_failure_keeps_files `{UnicodeData} `{Runtime}
    (pdf_path output_dir : string) (w : World) :
  is_Some (raised (extract_pages pdf_path)) \/
  (raised (extract_pages pdf_path) = None /\
   kept_pages (yielded (extract_pages pdf_path)) <> [] /\
   exists e, prettify (document (kept_pages (yielded (extract_pages pdf_path)))) = Raise e) ->
  exists (e : Exception) (w' : World),
    convert_pdf_to_html pdf_path output_dir w = (Raise e, w') /\
    files w' = files w /\
    (dirs w' = dirs w \/ dirs w' = {[output_dir]} ∪ dirs w).
Proof.
  intros Hfail.
  unfold convert_pdf_to_html, try_except.
  rewrite bind_run. unfold os_makedirs at 1.
  destruct (os_error (Sys_makedirs output_dir)) as [e0|].
  { exists e0. eexists. rewrite handler_run. split; [reflexivity |].
    split; [done | by left]. }
  rewrite print_bind, bind_run, extract_text_from_pdf_run.
  destruct Hfail as [[e He] | (Hr & Hne & e & He)].
  - rewrite He. exists e. eexists. rewrite handler_run.
    split; [reflexivity |]. split; [done | by right].
  - rewrite Hr, print_bind.
    rewrite bool_decide_eq_false_2 by done.
    rewrite print_bind, bind_run, create_html_from_text_run, He. simpl.
    exists e. eexists. rewrite handler_run.
    split; [reflexivity |]. split; [done | by right].
Qed.

(** In every run the files change only when the decoder did not raise and
    the serializer returned the HTML: nothing is opened before that. *)
Lemma convert_files_change_after_html `{UnicodeData} `{Runtime}
    (pdf_path output_dir : string) (w : World) :
  files (convert_pdf_to_html pdf_path output_dir w).2 = files w \/
  (raised (extract_pages pdf_path) = None /\
   exists html,
     prettify (document (kept_pages (yielded (extract_pages pdf_path)))) = Return html).
Proof.
  unfold convert_pdf_to_html, try_except.
  rewrite bind_run. unfold os_makedirs at 1.
  destruct (os_error (Sys_makedirs output_dir)) as [e0|]; [by left |].
  rewrite print_bind, bind_run, extract_text_from_pdf_run.
  destruct (raised (extract_pages pdf_path)) as [e|]; [by left |].
  rewrite print_bind. case_bool_decide; [by left |].
  rewrite print_bind, bind_run, create_html_from_text_run. simpl.
  destruct (prettify _) as [html|e]; [| by left].
  right. split; [done | by exists html].
Qed.

Lemma convert_failure_keeps_files_witness :
  let gen := Yield [text_at "CONTENTS" 700] (Raises (mk_Exception "No /Root object")) in
  let rt := runtime_of gen (Return []) in
  let w := mk_World [] ∅ {["html_output/hp8903.html" := str_of_string "<html>"]} in
  exists (e : Exception) (w' : World),
    @convert_pdf_to_html ascii_data rt "reference/hp8903.pdf" default_output_dir w
      = (Raise e, w') /\
    files w' = files w /\
    (dirs w' = dirs w \/ dirs w' = {[default_output_dir]} ∪ dirs w).
Proof.
  apply (@convert_failure_keeps_files ascii_data
           (runtime_of
              (Yield [text_at "CONTENTS" 700] (Raises (mk_Exception "No /Root object")))
              (Return []))
           "reference/hp8903.pdf" default_output_dir
           (mk_World [] ∅ {["html_output/hp8903.html" := str_of_string "<html>"]})).
  left. simpl. eexists. reflexivity.
Defined.

(** A conversion that succeeds writes the serialized document to the output
    path; this is the only way the files change. *)
Example convert_success :
  let html := str_of_string "<html></html>" in
  let rt := runtime_of (yields [[text_at "CONTENTS" 700]]) (Return html) in
  exists w',
    @convert_pdf_to_html ascii_data rt "reference/hp8903.pdf" default_output_dir
      empty_world = (Return (), w') /\
    files w' = {["html_output/hp8903.html" := html]} /\
    last (stdout w') = Some (Conversion_complete "html_output/hp8903.html").
Proof.
  eexists. split; [reflexivity |].
  split; [vm_compute; reflexivity | reflexivity].
Qed.

(** * Further properties *)

Example is_pdf_examples :
  is_pdf "hp8903.pdf" = true /\ is_pdf "MANUAL.PDF" = true /\
  is_pdf "notes.txt" = false /\ is_pdf "pdf" = false /\ is_pdf ".pdf" = true.
Proof. repeat split. Qed.

(** ** [strip] *)

Section StripFacts.
Context `{UnicodeData}.

Lemma lstrip_decompose (s : str) :
  exists pre : str,
    s = pre ++ lstrip s /\
    Forall (fun c => Py_UNICODE_ISSPACE c = true) pre /\
    (forall c, lstrip s !! 0 = Some c -> Py_UNICODE_ISSPACE c = false).
Proof.
  induction s as [|ch s (pre & Hs & Hpre & Hfirst)]; simpl.
  - exists []. repeat split; [constructor | done].
  - destruct (Py_UNICODE_ISSPACE ch) eqn:Hch.
    + exists (ch :: pre). simpl. rewrite <- Hs.
      repeat split; [by constructor | done].
    + exists []. repeat split; [constructor |].
      simpl. by intros c [= <-].
Qed.

Lemma rstrip_decompose (s : str) :
  exists suf : str,
    s = rstrip s ++ suf /\
    Forall (fun c => Py_UNICODE_ISSPACE c = true) suf /\
    (forall c, last (rstrip s) = Some c -> Py_UNICODE_ISSPACE c = false).
Proof.
  destruct (lstrip_decompose (reverse s)) as (pre & Hs & Hpre & Hfirst).
  exists (reverse pre). unfold rstrip. split; [| split].
  - rewrite <- reverse_app, <- Hs. by rewrite reverse_involutive.
  - by apply Forall_reverse.
  - intros c. rewrite last_reverse, head_lookup. apply Hfirst.
Qed.

Lemma lstrip_all_space (s : str) :
  Forall (fun c => Py_UNICODE_ISSPACE c = true) s -> lstrip s = [].
Proof. induction 1 as [|ch s Hch _ IH]; simpl; [done | by rewrite Hch]. Qed.

Lemma lstrip_fixed (s : str) :
  (forall c, s !! 0 = Some c -> Py_UNICODE_ISSPACE c = false) -> lstrip s = s.
Proof.
  destruct s as [|ch s]; simpl; [done |]. intros Hfirst.
  by rewrite (Hfirst ch eq_refl).
Qed.

Lemma rstrip_fixed (s : str) :
  (forall c, last s = Some c -> Py_UNICODE_ISSPACE c = false) -> rstrip s = s.
Proof.
  intros Hlast. unfold rstrip. rewrite lstrip_fixed.
  - apply reverse_involutive.
  - intros c Hc. apply Hlast. rewrite <- head_reverse, head_lookup. exact Hc.
Qed.

End StripFacts.

(** [strip] cuts whitespace off both ends and nothing else: the text is a
    run of whitespace, then the stripped text, then a run of whitespace, and
    the stripped text neither begins nor ends with whitespace. *)
Lemma strip_decompose `{UnicodeData} (s : str) :
  exists pre suf : str,
    s = pre ++ strip s ++ suf /\
    Forall (fun c => Py_UNICODE_ISSPACE c = true) pre /\
    Forall (fun c => Py_UNICODE_ISSPACE c = true) suf /\
    (forall c, strip s !! 0 = Some c -> Py_UNICODE_ISSPACE c = false) /\
    (forall c, last (strip s) = Some c -> Py_UNICODE_ISSPACE c = false).
Proof.
  destruct (lstrip_decompose s) as (pre & Hs & Hpre & Hfirst).
  destruct (rstrip_decompose (lstrip s)) as (suf & Ht & Hsuf & Hlast).
  exists pre, suf. unfold strip.
  split; [by rewrite <- Ht |]. split; [done |]. split; [done |].
  split; [| done].
  intros c Hc. apply Hfirst. rewrite Ht. by apply lookup_app_l_Some.
Qed.

(** Stripping twice is stripping once. *)
Lemma strip_idempotent `{UnicodeData} (s : str) : strip (strip s) = strip s.
Proof.
  destruct (strip_decompose s) as (_ & _ & _ & _ & _ & Hfirst & Hlast).
  unfold strip at 1. rewrite (lstrip_fixed _ Hfirst). by apply rstrip_fixed.
Qed.

(** X1: the block of a text container.  A container whose text is empty or
    all whitespace gives no block, and only such a container; any other
    gives one block with the container's own position and size, whose text
    is the container's text without the whitespace at its two ends: not
    empty, not beginning and not ending with whitespace. *)
Theorem element_block_text_container `{UnicodeData}
    (raw : str) (x0 y0 w h : Qc) :
  (element_block (LTTextContainer raw x0 y0 w h) = None <->
   Forall (fun c => Py_UNICODE_ISSPACE c = true) raw) /\
  (forall b, element_block (LTTextContainer raw x0 y0 w h) = Some b ->
     x b = x0 /\ y b = y0 /\ width b = w /\ height b = h /\
     text b <> [] /\
     (forall c, text b !! 0 = Some c -> Py_UNICODE_ISSPACE c = false) /\
     (forall c, last (text b) = Some c -> Py_UNICODE_ISSPACE c = false) /\
     exists pre suf : str,
       raw = pre ++ text b ++ suf /\
       Forall (fun c => Py_UNICODE_ISSPACE c = true) pre /\
       Forall (fun c => Py_UNICODE_ISSPACE c = true) suf).
Proof.
  unfold element_block.
  destruct (strip_decompose raw) as (pre & suf & Hraw & Hpre & Hsuf & Hfirst & Hlast).
  split.
  - case_bool_decide as Hs; split; try done.
    + intros _. rewrite Hraw, Hs. simpl. by apply Forall_app.
    + intros Hall. exfalso. apply Hs. unfold strip.
      by rewrite (lstrip_all_space raw Hall).
  - intros b. case_bool_decide as Hs; [done |]. intros [= <-]. simpl.
    repeat (split; [done |]). by exists pre, suf.
Qed.

(** ** More on classification *)

Lemma isdigit_elim `{UnicodeData} (s : str) :
  isdigit s = true -> s <> [] /\ Forall (fun c => Py_UNICODE_ISDIGIT c = true) s.
Proof.
  destruct s as [|ch [|ch' s]]; simpl; [done | |].
  - intros Hd. split; [done | by repeat constructor].
  - intros Hd. split; [done |]. apply andb_prop in Hd as [Hch Hd].
    apply andb_prop in Hd as [Hch' Hd].
    constructor; [done |]. constructor; [done |].
    apply Forall_forall. intros c Hc. rewrite forallb_forall in Hd.
    apply Hd. by apply list_elem_of_In.
Qed.

(** X2: what a role tells about the text.  A Header is shorter than 50
    characters and holds an uppercase character; a Footer is shorter than 30
    characters, not empty and made of digits only. *)
Theorem classify_role_inv `{UnicodeData} (text : str) :
  match classify text with
  | Header =>
      length text < 50 /\ Exists (fun c => Py_UNICODE_ISUPPER c = true) text
  | Footer =>
      length text < 30 /\ text <> [] /\
      Forall (fun c => Py_UNICODE_ISDIGIT c = true) text
  | Body => True
  end.
Proof.
  unfold classify.
  destruct (length text <? 50) eqn:H50, (isupper text) eqn:Hup; simpl;
    try (split; [by apply Nat.ltb_lt | by apply isupper_elim]);
    destruct (length text <? 30) eqn:H30, (isdigit text) eqn:Hd; simpl; try done;
    (split; [by apply Nat.ltb_lt | by apply isdigit_elim]).
Qed.

(** X3: the length thresholds.  A text of 30 characters or more is never a
    Footer, and a text of 50 characters or more is always Body, whatever its
    characters. *)
Theorem classify_long_text `{UnicodeData} (text : str) :
  30 <= length text ->
  classify text <> Footer /\ (50 <= length text -> classify text = Body).
Proof.
  intros H30. unfold classify.
  assert ((length text <? 30) = false) as -> by (apply Nat.ltb_ge; lia).
  simpl. split.
  - by destruct (_ && _).
  - intros H50. assert ((length text <? 50) = false) as -> by (apply Nat.ltb_ge; lia).
    done.
Qed.

Lemma classify_long_text_witness :
  let text := str_of_string "HP 8903B AUDIO ANALYZER OPERATION AND CALIBRATION MANUAL" in
  @classify ascii_data text <> Footer /\
  (50 <= length text -> @classify ascii_data text = Body).
Proof.
  apply (@classify_long_text ascii_data
           (str_of_string "HP 8903B AUDIO ANALYZER OPERATION AND CALIBRATION MANUAL")).
  simpl. lia.
Defined.

(** ** The blocks of a page *)

(** X4: every block of [page_text] comes from a text container of the page
    layout: it has that container's position and size and its stripped
    text, which is not empty; and there are at most as many blocks as
    layout elements. *)
Theorem page_text_blocks `{UnicodeData} (page_layout : list element) :
  length (page_text page_layout) <= length page_layout /\
  Forall (fun b =>
            text b <> [] /\
            exists raw, LTTextContainer raw (x b) (y b) (width b) (height b) ∈ page_layout /\
                        text b = strip raw)
         (page_text page_layout).
Proof.
  unfold page_text. split.
  - induction page_layout as [|e l IH]; simpl; [done |].
    destruct (element_block e); simpl; unfold omap in IH; lia.
  - apply Forall_forall. intros b Hb.
    apply list_elem_of_omap in Hb as (e & He & Hb).
    destruct e as [raw x0 y0 w h| | | | |]; simpl in Hb; try done.
    case_bool_decide as Hs; [done |]. injection Hb as <-. simpl.
    split; [done |]. by exists raw.
Qed.

(** ** More on the reading order *)

(** X5: the reading order is the only arrangement that is in descending
    order of [y] and keeps, for every [y], the blocks at that height in the
    order of the page. *)
Theorem sorted_blocks_unique (page l : list block) :
  StronglySorted (fun a b => (y b <= y a)%Qc) l ->
  (forall v : Qc, filter (fun b => y b = v) l = filter (fun b => y b = v) page) ->
  l = sorted_blocks page.
Proof.
  intros Hs Hf. apply stable_descending_unique; [done | |].
  - apply sorted_blocks_descending.
  - intros v. by rewrite Hf, sorted_blocks_stable.
Qed.

Lemma sorted_blocks_unique_witness :
  let page := [block_at "left" 700; block_at "title" 750; block_at "right" 700] in
  [block_at "title" 750; block_at "left" 700; block_at "right" 700] = sorted_blocks page.
Proof.
  apply (sorted_blocks_unique
           [block_at "left" 700; block_at "title" 750; block_at "right" 700]
           [block_at "title" 750; block_at "left" 700; block_at "right" 700]).
  - repeat constructor; vm_compute; discriminate.
  - intros v. rewrite !filter_cons, !filter_nil.
    destruct (decide (y (block_at "title" 750) = v)) as [<-|Hv1]; [done |].
    destruct (decide (y (block_at "left" 700) = v)) as [<-|Hv2]; [| done].
    rewrite decide_True by reflexivity. done.
Defined.

(** X6: sorting twice is sorting once: the reading order of a page that is
    already in reading order is that page. *)
Theorem sorted_blocks_idempotent (page : list block) :
  sorted_blocks (sorted_blocks page) = sorted_blocks page.
Proof.
  symmetry. apply stable_descending_unique.
  - apply sorted_blocks_descending.
  - apply sorted_blocks_descending.
  - intros v. by rewrite !sorted_blocks_stable.
Qed.

(** ** More on extraction *)

Section ExtractFacts.
Context `{UnicodeData}.

Lemma length_extract_events (layouts : list (list element)) (n : nat) :
  length (extract_events layouts n) = length layouts.
Proof.
  revert n. induction layouts as [|l ls IH]; intros n; simpl; [done |].
  case_bool_decide; simpl; by rewrite IH.
Qed.

Lemma extract_events_lookup (layouts : list (list element)) (i : nat)
    (page_layout : list element) :
  layouts !! i = Some page_layout ->
  extract_events layouts 0 !! i =
  Some (let k := length (kept_pages (take i layouts)) in
        if bool_decide (page_text page_layout = []) then
          Warning_no_text_found_on_page (k + 1)
        else
          Found_text_blocks_on_page (length (page_text page_layout)) (k + 1)).
Proof.
  intros Hi. pose proof (lookup_lt_Some _ _ _ Hi) as Hlt.
  rewrite <- (take_drop_middle layouts i page_layout Hi) at 1.
  rewrite extract_events_app.
  rewrite lookup_app_r; rewrite length_extract_events, length_take; [| lia].
  replace (i - i `min` length layouts) with 0 by lia. simpl.
  by case_bool_decide.
Qed.

End ExtractFacts.

(** X7: the line printed for the page at position [i] of the document (from
    0).  With [k] pages with text before it, a page without text gets the
    warning with number [k + 1], and a page with text gets the line with its
    number of blocks and the number [k + 1]. *)
Theorem extract_line_for_page `{UnicodeData} `{Runtime}
    (pdf_path : string) (w : World) (i : nat) (page_layout : list element) :
  yielded (extract_pages pdf_path) !! i = Some page_layout ->
  stdout (extract_text_from_pdf pdf_path w).2 !! (length (stdout w) + i) =
  Some (let k := length (kept_pages (take i (yielded (extract_pages pdf_path)))) in
        if bool_decide (page_text page_layout = []) then
          Warning_no_text_found_on_page (k + 1)
        else
          Found_text_blocks_on_page (length (page_text page_layout)) (k + 1)).
Proof.
  intros Hi. pose proof (lookup_lt_Some _ _ _ Hi) as Hlt.
  rewrite extract_text_from_pdf_run.
  destruct (raised (extract_pages pdf_path)); simpl;
    rewrite lookup_app_r by lia;
    replace (length (stdout w) + i - length (stdout w)) with i by lia.
  - rewrite lookup_app_l by (rewrite length_extract_events; lia).
    by apply extract_events_lookup.
  - by apply extract_events_lookup.
Qed.

Lemma extract_line_for_page_witness :
  let layouts := [[text_at "A" 700]; [LTRect]; [text_at "  " 700]; [text_at "B" 700; text_at "C" 600]] in
  let rt := runtime_of (yields layouts) (Return []) in
  stdout (@extract_text_from_pdf ascii_data rt "doc.pdf" empty_world).2 !! (0 + 2) =
    Some (Warning_no_text_found_on_page 2) /\
  stdout (@extract_text_from_pdf ascii_data rt "doc.pdf" empty_world).2 !! (0 + 3) =
    Some (Found_text_blocks_on_page 2 2).
Proof.
  split.
  - apply (@extract_line_for_page ascii_data
             (runtime_of
                (yields [[text_at "A" 700]; [LTRect]; [text_at "  " 700];
                         [text_at "B" 700; text_at "C" 600]])
                (Return []))
             "doc.pdf" empty_world 2 [text_at "  " 700]).
    reflexivity.
  - apply (@extract_line_for_page ascii_data
             (runtime_of
                (yields [[text_at "A" 700]; [LTRect]; [text_at "  " 700];
                         [text_at "B" 700; text_at "C" 600]])
                (Return []))
             "doc.pdf" empty_world 3 [text_at "B" 700; text_at "C" 600]).
    reflexivity.
Defined.

(** X8: extraction only reads and prints.  It leaves files and directories
    as they are and keeps what was printed before; when the decoder raises
    it raises the same exception, the last line printed being the error
    line with the exception's message, and returns no partial result;
    otherwise it returns the pages that have a block, in document order. *)
Theorem extract_text_from_pdf_effects `{UnicodeData} `{Runtime}
    (pdf_path : string) (w : World) :
  let r := extract_text_from_pdf pdf_path w in
  files r.2 = files w /\
  dirs r.2 = dirs w /\
  stdout w `prefix_of` stdout r.2 /\
  match raised (extract_pages pdf_path) with
  | Some e =>
      r.1 = Raise e /\ last (stdout r.2) = Some (Error_extracting_text (exn_str e))
  | None =>
      r.1 = Return (filter (fun page => page <> [])
                      (page_text <$> yielded (extract_pages pdf_path)))
  end.
Proof.
  simpl. rewrite extract_text_from_pdf_run.
  destruct (raised (extract_pages pdf_path)) as [e|]; simpl.
  - split; [done |]. split; [done |]. split; [by apply prefix_app_r |].
    split; [done |]. by rewrite !app_assoc, last_snoc.
  - split; [done |]. split; [done |]. split; [by apply prefix_app_r | done].
Qed.

(** ** More on the HTML *)

Lemma processing_events (text_content : list (list block)) (start : nat) :
  (fun p : nat * list block => Processing_page p.1 (length p.2))
    <$> enumerate text_content start =
  imap (fun i page => Processing_page (start + i) (length page)) text_content.
Proof.
  revert start. induction text_content as [|page l IH]; intros start; simpl; [done |].
  rewrite Nat.add_0_r. f_equal. etrans; [exact (IH (S start)) |].
  apply imap_ext. intros i p _. simpl. f_equal. lia.
Qed.

(** X9: [create_html_from_text] only prints and serializes.  It leaves
    files and directories as they are; it first prints one line per page,
    with the page's number from 1 and its number of blocks; it returns what
    the serializer makes of the tree, or raises what the serializer raises,
    and its last line is the length of the HTML or the error line. *)
Theorem create_html_from_text_effects `{UnicodeData} `{Runtime}
    (text_content : list (list block)) (w : World) :
  let r := create_html_from_text text_content w in
  files r.2 = files w /\
  dirs r.2 = dirs w /\
  r.1 = prettify (document text_content) /\
  take (length text_content) (drop (length (stdout w)) (stdout r.2)) =
    imap (fun i page => Processing_page (S i) (length page)) text_content /\
  last (stdout r.2) =
    Some (match prettify (document text_content) with
          | Return html => Generated_HTML_length (length html)
          | Raise e => Error_creating_HTML (exn_str e)
          end).
Proof.
  simpl. rewrite create_html_from_text_run. simpl.
  rewrite processing_events.
  assert (forall (tl : list event),
            take (length text_content)
              (drop (length (stdout w))
                 (stdout w ++
                  imap (fun i page => Processing_page (1 + i) (length page)) text_content
                  ++ tl)) =
            imap (fun i page => Processing_page (S i) (length page)) text_content) as Htake.
  { intros tl. rewrite drop_app_length.
    rewrite take_app_length'; [done | by rewrite length_imap]. }
  destruct (prettify (document text_content)) as [html|e]; simpl;
    (split; [done |]); (split; [done |]); (split; [done |]);
    (split; [apply Htake |]); by rewrite !app_assoc, last_snoc.
Qed.

(** ** More on the conversion *)

Section ConvertRun.
Context `{UnicodeData} `{Runtime}.

(** Every run of [convert_pdf_to_html], branch by branch. *)
Lemma convert_run (pdf_path output_dir : string) (w : World) :
  convert_pdf_to_html pdf_path output_dir w =
  let out := output_path pdf_path output_dir in
  let gen := extract_pages pdf_path in
  let text_content := kept_pages (yielded gen) in
  let made := {[output_dir]} ∪ dirs w in
  let failed e := Error_during_conversion (exn_str e) in
  let extracting := Extracting_text_from pdf_path :: extract_events (yielded gen) 0 in
  let converting :=
    extracting
    ++ [Extracted_pages_of_content (length text_content); Converting_to_HTML]
    ++ ((fun p : nat * list block => Processing_page p.1 (length p.2))
          <$> enumerate text_content 1) in
  match os_error (Sys_makedirs output_dir) with
  | Some e => (Raise e, mk_World (stdout w ++ [failed e]) (dirs w) (files w))
  | None =>
    match raised gen with
    | Some e =>
        (Raise e,
         mk_World
           (stdout w ++ extracting ++ [Error_extracting_text (exn_str e); failed e])
           made (files w))
    | None =>
      if bool_decide (text_content = []) then
        (Return (),
         mk_World
           (stdout w ++ extracting
            ++ [Extracted_pages_of_content (length text_content);
                Warning_no_text_content_extracted])
           made (files w))
      else
        match prettify (document text_content) with
        | Raise e =>
            (Raise e,
             mk_World
               (stdout w ++ converting ++ [Error_creating_HTML (exn_str e); failed e])
               made (files w))
        | Return html =>
          if bool_decide (html = []) then
            (Return (),
             mk_World
               (stdout w ++ converting
                ++ [Generated_HTML_length (length html);
                    Warning_no_HTML_content_generated])
               made (files w))
          else
            let saving :=
              converting ++ [Generated_HTML_length (length html); Saving_HTML_to out] in
            match os_error (Sys_open_w out) with
            | Some e =>
                (Raise e, mk_World (stdout w ++ saving ++ [failed e]) made (files w))
            | None =>
              match os_error (Sys_write out) with
              | Some e =>
                  (Raise e,
                   mk_World (stdout w ++ saving ++ [failed e]) made
                     (<[out := []]> (files w)))
              | None =>
                  (Return (),
                   mk_World
                     (stdout w ++ saving
                      ++ [Wrote_bytes_to_file (length html);
                          File_created_successfully (utf8_size html);
                          Conversion_complete out])
                     made (<[out := html]> (files w)))
              end
            end
        end
    end
  end.
Proof.
  unfold convert_pdf_to_html, try_except, output_path.
  rewrite bind_run. unfold os_makedirs at 1.
  destruct (os_error (Sys_makedirs output_dir)) as [e0|]; [done |].
  rewrite print_bind, bind_run, extract_text_from_pdf_run.
  destruct (raised (extract_pages pdf_path)) as [e|].
  { rewrite handler_run. unfold emit. simpl. by rewrite <- !app_assoc. }
  rewrite print_bind. case_bool_decide as Htc.
  { rewrite print_bind. unfold mret, Py_ret, emit. simpl. by rewrite <- !app_assoc. }
  rewrite print_bind, bind_run, create_html_from_text_run. simpl.
  destruct (prettify _) as [html|e].
  2: { rewrite handler_run. unfold emit. simpl. by rewrite <- !app_assoc. }
  destruct (decide (html = [])) as [Hhtml|Hhtml].
  { rewrite !bool_decide_eq_true_2 by done.
    rewrite print_bind. unfold mret, Py_ret, emit. simpl. by rewrite <- !app_assoc. }
  rewrite !bool_decide_eq_false_2 by done.
  rewrite print_bind, bind_run. unfold open_w at 1.
  destruct (os_error (Sys_open_w _)) as [e|].
  { rewrite handler_run. unfold emit. simpl. by rewrite <- !app_assoc. }
  rewrite bind_run. unfold write at 1.
  destruct (os_error (Sys_write _)) as [e|].
  { rewrite handler_run. unfold emit. simpl. by rewrite <- !app_assoc. }
  rewrite print_bind, bind_run. unfold os_path_exists at 1.
  cbn [files emit]. rewrite lookup_insert_eq.
  rewrite bool_decide_eq_true_2 by done. cbn [orb].
  rewrite bind_run, bind_run. unfold os_path_getsize at 1.
  cbn [files emit]. rewrite lookup_insert_eq. cbn [default].
  unfold print, emit. simpl.
  rewrite insert_insert_eq. by rewrite <- !app_assoc.
Qed.

End ConvertRun.

(** X10: a conversion in which nothing fails.  When the directory can be
    made, the decoder does not raise, some page has text, the serializer
    returns a non-empty HTML and the file can be opened and written, the
    conversion returns normally, the output path holds exactly that HTML
    (whatever it held before), the output directory exists and the last line
    printed names the output path. *)
Theorem convert_success_writes_html `{UnicodeData} `{Runtime}
    (pdf_path output_dir : string) (html : str) (w : World) :
  os_error (Sys_makedirs output_dir) = None ->
  raised (extract_pages pdf_path) = None ->
  kept_pages (yielded (extract_pages pdf_path)) <> [] ->
  prettify (document (kept_pages (yielded (extract_pages pdf_path)))) = Return html ->
  html <> [] ->
  os_error (Sys_open_w (output_path pdf_path output_dir)) = None ->
  os_error (Sys_write (output_path pdf_path output_dir)) = None ->
  exists w',
    convert_pdf_to_html pdf_path output_dir w = (Return (), w') /\
    files w' = <[output_path pdf_path output_dir := html]> (files w) /\
    dirs w' = {[output_dir]} ∪ dirs w /\
    last (stdout w') = Some (Conversion_complete (output_path pdf_path output_dir)).
Proof.
  intros Hmk Hr Htc Hp Hhtml Hopen Hwrite.
  rewrite convert_run. cbv zeta. rewrite Hmk, Hr, Hp, Hopen, Hwrite.
  rewrite !bool_decide_eq_false_2 by done.
  eexists. split; [reflexivity |]. cbn [files dirs stdout].
  split; [done |]. split; [done |]. by rewrite !last_app.
Qed.

Lemma convert_success_writes_html_witness :
  let html := str_of_string "<html></html>" in
  let rt := runtime_of (yields [[text_at "CONTENTS" 700]]) (Return html) in
  let w := mk_World [] ∅ {["html_output/hp8903.html" := str_of_string "old"]} in
  exists w',
    @convert_pdf_to_html ascii_data rt "reference/hp8903.pdf" default_output_dir w
      = (Return (), w') /\
    files w' = <[output_path "reference/hp8903.pdf" default_output_dir := html]> (files w) /\
    dirs w' = {[default_output_dir]} ∪ dirs w /\
    last (stdout w') =
      Some (Conversion_complete (output_path "reference/hp8903.pdf" default_output_dir)).
Proof.
  apply (@convert_success_writes_html ascii_data
           (runtime_of (yields [[text_at "CONTENTS" 700]])
              (Return (str_of_string "<html></html>")))
           "reference/hp8903.pdf" default_output_dir (str_of_string "<html></html>")
           (mk_World [] ∅ {["html_output/hp8903.html" := str_of_string "old"]}));
    try reflexivity; discriminate.
Defined.



(** X12: when the serializer returns the empty string, the conversion
    returns normally without opening the output file: the files are as
    before and the last line printed is the warning that no HTML content was
    generated. *)
Theorem convert_empty_html `{UnicodeData} `{Runtime}
    (pdf_path output_dir : string) (w : World) :
  os_error (Sys_makedirs output_dir) = None ->
  raised (extract_pages pdf_path) = None ->
  kept_pages (yielded (extract_pages pdf_path)) <> [] ->
  prettify (document (kept_pages (yielded (extract_pages pdf_path)))) = Return [] ->
  exists w',
    convert_pdf_to_html pdf_path output_dir w = (Return (), w') /\
    files w' = files w /\
    last (stdout w') = Some Warning_no_HTML_content_generated.
Proof.
  intros Hmk Hr Htc Hp.
  rewrite convert_run. cbv zeta. rewrite Hmk, Hr, Hp.
  rewrite bool_decide_eq_false_2 by done.
  rewrite bool_decide_eq_true_2 by done.
  eexists. split; [reflexivity |]. cbn [files dirs stdout].
  split; [done |]. by rewrite !last_app.
Qed.

Lemma convert_empty_html_witness :
  let rt := runtime_of (yields [[text_at "CONTENTS" 700]]) (Return []) in
  exists w',
    @convert_pdf_to_html ascii_data rt "reference/hp8903.pdf" default_output_dir
      empty_world = (Return (), w') /\
    files w' = files empty_world /\
    last (stdout w') = Some Warning_no_HTML_content_generated.
Proof.
  apply (@convert_empty_html ascii_data
           (runtime_of (yields [[text_at "CONTENTS" 700]]) (Return []))
           "reference/hp8903.pdf" default_output_dir empty_world);
    try reflexivity; discriminate.
Defined.

(** X13: when the output file cannot be opened for writing, the conversion
    raises that exception and the files are as before; the output directory
    has been made. *)
Theorem convert_open_refused `{UnicodeData} `{Runtime}
    (pdf_path output_dir : string) (html : str) (e : Exception) (w : World) :
  os_error (Sys_makedirs output_dir) = None ->
  raised (extract_pages pdf_path) = None ->
  kept_pages (yielded (extract_pages pdf_path)) <> [] ->
  prettify (document (kept_pages (yielded (extract_pages pdf_path)))) = Return html ->
  html <> [] ->
  os_error (Sys_open_w (output_path pdf_path output_dir)) = Some e ->
  exists w',
    convert_pdf_to_html pdf_path output_dir w = (Raise e, w') /\
    files w' = files w /\
    dirs w' = {[output_dir]} ∪ dirs w.
Proof.
  intros Hmk Hr Htc Hp Hhtml Hopen.
  rewrite convert_run. cbv zeta. rewrite Hmk, Hr, Hp, Hopen.
  rewrite !bool_decide_eq_false_2 by done.
  eexists. split; [reflexivity |]. by simpl.
Qed.

Lemma convert_open_refused_witness :
  let e := mk_Exception "[Errno 13] Permission denied" in
  let html := str_of_string "<html></html>" in
  let rt := runtime_with (refuse_open e) (yields [[text_at "CONTENTS" 700]]) (Return html) in
  exists w',
    @convert_pdf_to_html ascii_data rt "reference/hp8903.pdf" default_output_dir
      empty_world = (Raise e, w') /\
    files w' = files empty_world /\
    dirs w' = {[default_output_dir]} ∪ dirs empty_world.
Proof.
  apply (@convert_open_refused ascii_data
           (runtime_with (refuse_open (mk_Exception "[Errno 13] Permission denied"))
              (yields [[text_at "CONTENTS" 700]])
              (Return (str_of_string "<html></html>")))
           "reference/hp8903.pdf" default_output_dir (str_of_string "<html></html>")
           (mk_Exception "[Errno 13] Permission denied") empty_world);
    try reflexivity; discriminate.
Defined.

(** Whatever happens, a conversion leaves every file other than its output
    path as it was. *)
Lemma convert_files_other `{UnicodeData} `{Runtime}
    (pdf_path output_dir path : string) (w : World) :
  path <> output_path pdf_path output_dir ->
  files (convert_pdf_to_html pdf_path output_dir w).2 !! path = files w !! path.
Proof.
  intros Hne. rewrite convert_run. cbv zeta.
  repeat first [ case_bool_decide | case_match ]; cbn [snd files]; try done;
    by rewrite lookup_insert_ne.
Qed.


(** X15: how a conversion ends.  When it raises, the last line printed is
    the error line with the message of the exception raised; when it returns
    normally, the last line is one of the two warnings (no text, no HTML) or
    the line that names the saved file. *)
Theorem convert_last_line `{UnicodeData} `{Runtime}
    (pdf_path output_dir : string) (w : World) :
  let r := convert_pdf_to_html pdf_path output_dir w in
  match r.1 with
  | Raise e => last (stdout r.2) = Some (Error_during_conversion (exn_str e))
  | Return _ =>
      last (stdout r.2) = Some Warning_no_text_content_extracted \/
      last (stdout r.2) = Some Warning_no_HTML_content_generated \/
      last (stdout r.2) = Some (Conversion_complete (output_path pdf_path output_dir))
  end.
Proof.
  simpl. rewrite convert_run. cbv zeta.
  repeat first [ case_bool_decide | case_match ]; cbn [fst snd stdout] in *;
    rewrite ?last_app; cbn [last]; simplify_eq; eauto.
Qed.

(** ** The output path *)












(** ** The batch *)

Section MainFacts.
Context `{UnicodeData} `{Runtime}.

(** One turn of the loop of [main]. *)
Lemma main_loop_cons (filename : string) (rest : list string) (c : Console) :
  main_loop (filename :: rest) c =
  if is_pdf filename then
    let r := convert_pdf_to_html (join pdf_dir filename) default_output_dir
               (mk_World [] (console_dirs c) (console_files c)) in
    main_loop rest
      (mk_Console
         (lines c ++ Processing_file filename :: (Script_line <$> stdout r.2)
          ++ match r.1 with
             | Raise e => [Failed_to_process filename (exn_str e)]
             | Return _ => []
             end)
         (dirs r.2) (files r.2))
  else main_loop rest c.
Proof.
  unfold is_pdf. cbn [main_loop]. unfold mbind at 1, Main_bind at 1.
  destruct (endswith (lower filename) ".pdf"); [| done].
  unfold mbind, Main_bind, say, main_try_except, call. cbn [lines console_dirs console_files].
  destruct (convert_pdf_to_html _ _ _) as [[[]|e] w']; cbn [fst snd lines console_dirs console_files];
    by rewrite <- ?app_assoc, ?app_nil_r.
Qed.

(** The loop returns normally and only adds lines. *)
Lemma main_loop_returns (filenames : list string) (c : Console) :
  exists new : list line,
    (main_loop filenames c).1 = Return () /\
    lines (main_loop filenames c).2 = lines c ++ new /\
    omap (fun l => match l with Processing_file f => Some f | _ => None end) new =
      filter (fun f => is_pdf f = true) filenames.
Proof.
  revert c. induction filenames as [|f rest IH]; intros c.
  - exists []. by rewrite app_nil_r.
  - rewrite main_loop_cons, filter_cons.
    destruct (is_pdf f) eqn:Hpdf.
    + rewrite decide_True by done. cbv zeta.
      set (r := convert_pdf_to_html _ _ _).
      set (tl := match r.1 with
                 | Raise e => [Failed_to_process f (exn_str e)]
                 | Return _ => []
                 end).
      edestruct IH as (new & Hret & Hlines & Hproc).
      exists (Processing_file f :: (Script_line <$> stdout r.2) ++ tl ++ new).
      split; [exact Hret |]. rewrite Hlines. cbn [lines].
      split; [rewrite <- app_assoc; simpl; by rewrite <- app_assoc |].
      cbn [omap list_omap]. fold (@omap list _ line string). f_equal.
      rewrite !omap_app, Hproc.
      assert (forall evs : list event,
                omap (fun l => match l with Processing_file f => Some f | _ => None end)
                  (Script_line <$> evs) = []) as ->.
      { intros evs. by induction evs. }
      assert (omap (fun l => match l with Processing_file f => Some f | _ => None end) tl
              = []) as ->.
      { unfold tl. by destruct (r.1). }
      done.
    + rewrite decide_False by done. apply IH.
Qed.

Lemma main_loop_files_other (filenames : list string) (path : string) (c : Console) :
  (forall f, f ∈ filenames -> is_pdf f = true ->
     path <> output_path (join pdf_dir f) default_output_dir) ->
  console_files (main_loop filenames c).2 !! path = console_files c !! path.
Proof.
  revert c. induction filenames as [|f rest IH]; intros c Hpath; [done |].
  rewrite main_loop_cons. destruct (is_pdf f) eqn:Hpdf.
  - cbv zeta. rewrite IH by (intros f' Hf'; apply Hpath; by right).
    cbn [console_files]. rewrite convert_files_other; [done |].
    apply Hpath; [by left | done].
  - apply IH. intros f' Hf'. apply Hpath. by right.
Qed.

Lemma main_loop_reports (filenames : list string) (f : string) (e : Exception)
    (c : Console) :
  f ∈ filenames -> is_pdf f = true ->
  os_error (Sys_makedirs default_output_dir) = None ->
  raised (extract_pages (join pdf_dir f)) = Some e ->
  Failed_to_process f (exn_str e) ∈ lines (main_loop filenames c).2.
Proof.
  intros Hin Hpdf Hmk Hraised. revert c.
  induction filenames as [|f0 rest IH]; intros c; [by apply elem_of_nil in Hin |].
  rewrite main_loop_cons.
  destruct (decide (f = f0)) as [<- | Hne].
  - rewrite Hpdf. cbv zeta.
    destruct (main_loop_returns rest
                (mk_Console
                   (lines c ++ Processing_file f
                    :: (Script_line <$> stdout
                          (convert_pdf_to_html (join pdf_dir f) default_output_dir
                             (mk_World [] (console_dirs c) (console_files c))).2)
                    ++ match (convert_pdf_to_html (join pdf_dir f) default_output_dir
                                (mk_World [] (console_dirs c) (console_files c))).1 with
                       | Raise e => [Failed_to_process f (exn_str e)]
                       | Return _ => []
                       end)
                   (dirs (convert_pdf_to_html (join pdf_dir f) default_output_dir
                            (mk_World [] (console_dirs c) (console_files c))).2)
                   (files (convert_pdf_to_html (join pdf_dir f) default_output_dir
                             (mk_World [] (console_dirs c) (console_files c))).2)))
      as (new & _ & -> & _).
    cbn [lines]. rewrite convert_run. cbv zeta. rewrite Hmk, Hraised. cbn [fst snd].
    rewrite !elem_of_app, !elem_of_cons, !elem_of_app. left. right. right. right.
    apply list_elem_of_singleton. done.
  - apply elem_of_cons in Hin as [-> | Hin]; [done |].
    destruct (is_pdf f0); by apply IH.
Qed.

End MainFacts.

(** X17: the batch.  When the directory cannot be listed, [main] raises
    that exception and does nothing else.  Otherwise it returns normally,
    whatever happens in the conversions; it only adds lines to the output,
    and the files it announces are the entries of the listing whose name
    ends in [.pdf] in any letter case, each once and in listing order. *)
Theorem main_processes_every_pdf `{UnicodeData} `{Runtime}
    (listdir : string -> outcome (list string)) (c : Console) :
  match listdir pdf_dir with
  | Raise e => main listdir c = (Raise e, c)
  | Return filenames =>
      exists (c' : Console) (new : list line),
        main listdir c = (Return (), c') /\
        lines c' = lines c ++ new /\
        omap (fun l => match l with Processing_file f => Some f | _ => None end) new =
          filter (fun f => is_pdf f = true) filenames
  end.
Proof.
  unfold main. destruct (listdir pdf_dir) as [filenames|e]; [| done].
  destruct (main_loop_returns filenames c) as (new & Hret & Hlines & Hproc).
  exists (main_loop filenames c).2, new.
  split; [| done]. destruct (main_loop filenames c) as [r c']. simpl in *. by subst.
Qed.

(** X18: the batch changes no file other than the output paths of the PDF
    files of the listing. *)
Theorem main_touches_only_outputs `{UnicodeData} `{Runtime}
    (listdir : string -> outcome (list string)) (filenames : list string)
    (path : string) (c : Console) :
  listdir pdf_dir = Return filenames ->
  (forall f, f ∈ filenames -> is_pdf f = true ->
     path <> output_path (join pdf_dir f) default_output_dir) ->
  console_files (main listdir c).2 !! path = console_files c !! path.
Proof.
  intros Hls Hpath. unfold main. rewrite Hls. by apply main_loop_files_other.
Qed.

Lemma main_touches_only_outputs_witness :
  let rt := runtime_of (yields [[text_at "CONTENTS" 700]])
              (Return (str_of_string "<html></html>")) in
  let listdir := fun _ : string => Return ["hp8903.pdf"; "notes.txt"] in
  let c := mk_Console [] ∅ {["reference/notes.txt" := str_of_string "keep"]} in
  console_files (@main ascii_data rt listdir c).2 !! "reference/notes.txt" =
  console_files c !! "reference/notes.txt".
Proof.
  apply (@main_touches_only_outputs ascii_data
           (runtime_of (yields [[text_at "CONTENTS" 700]])
              (Return (str_of_string "<html></html>")))
           (fun _ : string => Return ["hp8903.pdf"; "notes.txt"])
           ["hp8903.pdf"; "notes.txt"] "reference/notes.txt"
           (mk_Console [] ∅ {["reference/notes.txt" := str_of_string "keep"]})).
  - reflexivity.
  - intros f Hf Hpdf.
    apply elem_of_cons in Hf as [-> | Hf]; [vm_compute; discriminate |].
    apply elem_of_cons in Hf as [-> | Hf]; [vm_compute in Hpdf; discriminate |].
    by apply elem_of_nil in Hf.
Defined.

(** X19: a PDF the decoder cannot read does not stop the batch: [main]
    returns normally and its output holds the line that names the file and
    the message of the exception. *)
Theorem main_reports_unreadable_pdf `{UnicodeData} `{Runtime}
    (listdir : string -> outcome (list string)) (filenames : list string)
    (f : string) (e : Exception) (c : Console) :
  listdir pdf_dir = Return filenames ->
  f ∈ filenames ->
  is_pdf f = true ->
  os_error (Sys_makedirs default_output_dir) = None ->
  raised (extract_pages (join pdf_dir f)) = Some e ->
  (main listdir c).1 = Return () /\
  Failed_to_process f (exn_str e) ∈ lines (main listdir c).2.
Proof.
  intros Hls Hin Hpdf Hmk Hraised. unfold main. rewrite Hls. split.
  - by destruct (main_loop_returns filenames c) as (_ & Hret & _).
  - by apply main_loop_reports.
Qed.

Lemma main_reports_unreadable_pdf_witness :
  let e := mk_Exception "No /Root object! - Is this really a PDF?" in
  let rt := runtime_of (Raises e) (Return []) in
  let listdir := fun _ : string => Return ["broken.PDF"; "readme.md"] in
  (@main ascii_data rt listdir empty_console).1 = Return () /\
  Failed_to_process "broken.PDF" (exn_str e)
    ∈ lines (@main ascii_data rt listdir empty_console).2.
Proof.
  apply (@main_reports_unreadable_pdf ascii_data
           (runtime_of (Raises (mk_Exception "No /Root object! - Is this really a PDF?"))
              (Return []))
           (fun _ : string => Return ["broken.PDF"; "readme.md"])
           ["broken.PDF"; "readme.md"] "broken.PDF"
           (mk_Exception "No /Root object! - Is this really a PDF?") empty_console);
    try reflexivity.
  by left.
Defined.
